(** * NLLB translation API: language resolution and request pipeline

    A shallow embedding of [src/handler.py] (the batch surface),
    [src/models/nllb_model.py] (the translator class), [src/api/endpoints.py]
    (the REST surface) and [src/utils/exceptions.py].

    Python values are modelled as the code has them: a [str] is a sequence of
    Unicode code points, a [dict] is an association list, a JSON payload is a
    [pyval].  The pretrained model, its tokenizer and the language detector
    are external: they appear as oracles that may return or raise, and every
    call to one of them is recorded in a trace of events.  Module globals and
    the singleton translator are an explicit state that each operation
    threads.  Log records are not part of the model. *)

From Stdlib Require Import List String Ascii NArith ZArith Bool Lia.
From Stdlib Require Import DecimalString.
Import ListNotations.
Open Scope list_scope.

Local Set Warnings "-register-all".

(* ================================================================== *)
(** * Python strings *)

(** A Python [str]: its code points, in order. *)
Definition pystr : Type := list N.

(** An ASCII literal of the source, as a [str]. *)
Definition lit (s : string) : pystr :=
  List.map N_of_ascii (list_ascii_of_string s).

Fixpoint str_eqb (a b : pystr) : bool :=
  match a, b with
  | [], [] => true
  | x :: a', y :: b' => N.eqb x y && str_eqb a' b'
  | _, _ => false
  end.

(** [str.isspace] on one code point: the characters CPython treats as
    whitespace (bidirectional class WS, B or S, or category Zs). *)
Definition isspace (c : N) : bool :=
  ((9 <=? c) && (c <=? 13) || (28 <=? c) && (c <=? 32)
   || (c =? 133) || (c =? 160) || (c =? 5760)
   || (8192 <=? c) && (c <=? 8202)
   || (c =? 8232) || (c =? 8233) || (c =? 8239) || (c =? 8287)
   || (c =? 12288))%N.

Fixpoint lstrip (s : pystr) : pystr :=
  match s with
  | [] => []
  | c :: r => if isspace c then lstrip r else s
  end.

Definition rstrip (s : pystr) : pystr := rev (lstrip (rev s)).

(** [s.strip()] with no argument. *)
Definition strip (s : pystr) : pystr := rstrip (lstrip s).

(** [s.split(sep)] for a one-character separator: the pieces between the
    occurrences of [sep]; always at least one piece. *)
Fixpoint split (sep : N) (s : pystr) : list pystr :=
  match s with
  | [] => [[]]
  | c :: r =>
      if N.eqb c sep then [] :: split sep r
      else match split sep r with
           | [] => [[c]]
           | p :: ps => (c :: p) :: ps
           end
  end.

(** The code point of ['_']. *)
Definition underscore : N := 95%N.

(** Truthiness of a [str]: non-empty. *)
Definition str_truthy (s : pystr) : bool :=
  match s with [] => false | _ => true end.

(* ================================================================== *)
(** * Dictionaries *)

(** A [dict] with [str] keys: its items in insertion order. *)
Definition dict (V : Type) : Type := list (pystr * V).

Fixpoint dict_lookup {V} (d : dict V) (k : pystr) : option V :=
  match d with
  | [] => None
  | (k', v) :: r => if str_eqb k' k then Some v else dict_lookup r k
  end.

(** [d[k] = v]: replaces the value of an existing key in place, appends a
    new key. *)
Fixpoint dict_set {V} (d : dict V) (k : pystr) (v : V) : dict V :=
  match d with
  | [] => [(k, v)]
  | (k', v') :: r =>
      if str_eqb k' k then (k', v) :: r else (k', v') :: dict_set r k v
  end.

(** A dict display [{k1: v1, ..., kn: vn}]: the items are inserted from
    left to right, a repeated key keeps its position and takes the last
    value. *)
Definition dict_display {V} (items : list (pystr * V)) : dict V :=
  fold_left (fun d kv => dict_set d (fst kv) (snd kv)) items [].

(* ================================================================== *)
(** * Python values of a JSON payload *)

(** Numbers are integers; a float takes the same branches as an integer
    of the same truthiness everywhere in this code. *)
Inductive pyval : Type :=
| PNone
| PBool (b : bool)
| PInt (z : Z)
| PStr (s : pystr)
| PList (l : list pyval)
| PDict (d : list (pystr * pyval)).

(** [bool(v)]. *)
Definition truthy (v : pyval) : bool :=
  match v with
  | PNone => false
  | PBool b => b
  | PInt z => negb (Z.eqb z 0)
  | PStr s => str_truthy s
  | PList l => match l with [] => false | _ => true end
  | PDict d => match d with [] => false | _ => true end
  end.

(** [a or b]. *)
Definition py_or (a b : pyval) : pyval := if truthy a then a else b.

(** [type(v).__name__]. *)
Definition type_name (v : pyval) : pystr :=
  match v with
  | PNone => lit "NoneType"
  | PBool _ => lit "bool"
  | PInt _ => lit "int"
  | PStr _ => lit "str"
  | PList _ => lit "list"
  | PDict _ => lit "dict"
  end.

(* ================================================================== *)
(** * Exceptions *)

(** The exceptions of [src/utils/exceptions.py], those the interpreter
    raises on the operations used here, and those of the external
    libraries, which are known by their message only.  All are subclasses
    of [Exception]. *)
Inductive exn : Type :=
| TranslationError (message : pystr)
| UnsupportedLanguageError (language_code : pystr)
| ModelLoadingError (message : pystr)
| AttributeError (type attr : pystr)
| TypeError_unhashable (type : pystr)
| KeyError (key : pyval)
| LibraryError (message : pystr).

(** [repr(k)] of a hashable key.  For a [str] this is the text between
    single quotes, which is what Python prints for a string of printable
    characters without quote or backslash, such as ['en']. *)
Definition py_repr (k : pyval) : pystr :=
  match k with
  | PNone => lit "None"
  | PBool true => lit "True"
  | PBool false => lit "False"
  | PInt z => lit (NilZero.string_of_int (Z.to_int z))
  | PStr s => lit "'" ++ s ++ lit "'"
  | PList _ => lit "[...]"
  | PDict _ => lit "{...}"
  end.

(** [str(e)]. *)
Definition str_exn (e : exn) : pystr :=
  match e with
  | TranslationError m => m
  | UnsupportedLanguageError c =>
      lit "Language '" ++ c ++ lit "' is not supported"
  | ModelLoadingError m => m
  | AttributeError t a =>
      lit "'" ++ t ++ lit "' object has no attribute '" ++ a ++ lit "'"
  | TypeError_unhashable t => lit "unhashable type: '" ++ t ++ lit "'"
  | KeyError k => py_repr k
  | LibraryError m => m
  end.

(** The outcome of an expression: a value, or a raised exception. *)
Inductive res (A : Type) : Type :=
| Ok (a : A)
| Raise (e : exn).
Arguments Ok {A} a.
Arguments Raise {A} e.

(* ------------------------------------------------------------------ *)
(** ** Operations on a [dict] with an arbitrary key *)

(** Hashing a key: lists and dicts are unhashable. *)
Definition hashable (k : pyval) : bool :=
  match k with
  | PList _ | PDict _ => false
  | _ => true
  end.

(** The item of [d] whose key equals [k], for a hashable [k]: the keys
    are strings, so only a string can be equal to one. *)
Definition find_key {V} (d : dict V) (k : pyval) : option V :=
  match k with
  | PStr s => dict_lookup d s
  | _ => None
  end.

(** [k in d]. *)
Definition dict_contains {V} (d : dict V) (k : pyval) : res bool :=
  if hashable k
  then Ok (match find_key d k with Some _ => true | None => false end)
  else Raise (TypeError_unhashable (type_name k)).

(** [d.get(k)]: [None] of Python is [None] here. *)
Definition dict_get {V} (d : dict V) (k : pyval) : res (option V) :=
  if hashable k then Ok (find_key d k)
  else Raise (TypeError_unhashable (type_name k)).

(** [d.get(k, default)], the default already evaluated. *)
Definition dict_get_default {V} (d : dict V) (k : pyval) (default : V)
  : res V :=
  if hashable k
  then Ok (match find_key d k with Some v => v | None => default end)
  else Raise (TypeError_unhashable (type_name k)).

(** [d[k]]. *)
Definition dict_getitem {V} (d : dict V) (k : pyval) : res V :=
  if hashable k
  then match find_key d k with
       | Some v => Ok v
       | None => Raise (KeyError k)
       end
  else Raise (TypeError_unhashable (type_name k)).

(** [v.strip()]: only a [str] has the method. *)
Definition py_strip (v : pyval) : res pystr :=
  match v with
  | PStr s => Ok (strip s)
  | _ => Raise (AttributeError (type_name v) (lit "strip"))
  end.

(** [v.get(k)] on a payload value: only a [dict] has the method; a
    missing key gives [None]. *)
Definition py_get (v : pyval) (k : pystr) : res pyval :=
  match v with
  | PDict d =>
      Ok (match dict_lookup d k with Some x => x | None => PNone end)
  | _ => Raise (AttributeError (type_name v) (lit "get"))
  end.

(** [v.get(k, default)]. *)
Definition py_get_default (v : pyval) (k : pystr) (default : pyval)
  : res pyval :=
  match v with
  | PDict d =>
      Ok (match dict_lookup d k with Some x => x | None => default end)
  | _ => Raise (AttributeError (type_name v) (lit "get"))
  end.

(* ================================================================== *)
(** * External capabilities, events and the effect monad *)

(** The tokenizer object: the one attribute the code writes. *)
Record tokenizer_t : Type := { src_lang : pystr }.

(** A call to an external capability. *)
Inductive event : Type :=
| LoadTokenizer                            (* AutoTokenizer.from_pretrained *)
| LoadModel                                (* AutoModelForSeq2SeqLM.from_pretrained *)
| Detect (text : pystr)                    (* langdetect.detect *)
| Generate (src tgt text : pystr)          (* tokenize, generate, decode *)
.

(** The external libraries.  Each oracle sees the calls made so far, so
    it need not answer the same question twice the same way, and either
    returns or raises.  [generate] stands for the sequence
    [tokenizer(text)], [tokenizer.lang_code_to_id[tgt]], [model.generate]
    with [max_length=1024], [num_beams=5] and the forced first token, and
    [batch_decode(...)[0]], run with the tokenizer's [src_lang] set to
    [src]. *)
Record capabilities : Type := {
  load_tokenizer : list event -> res tokenizer_t;
  load_seq2seq : list event -> res unit;
  detect : list event -> pystr -> res pystr;
  generate : list event -> pystr -> pystr -> pystr -> res pystr
}.

(** A computation over a state [S]: it reads and writes the state,
    extends the trace, and returns or raises.  A raise keeps the state
    and the trace reached so far. *)
Definition M (S A : Type) : Type :=
  S -> list event -> res A * S * list event.

Definition ret {S A} (a : A) : M S A := fun s tr => (Ok a, s, tr).

Definition raise {S A} (e : exn) : M S A := fun s tr => (Raise e, s, tr).

Definition bind {S A B} (m : M S A) (k : A -> M S B) : M S B :=
  fun s tr =>
    match m s tr with
    | (Ok a, s', tr') => k a s' tr'
    | (Raise e, s', tr') => (Raise e, s', tr')
    end.

(** [try: m except Exception as e: h e]. *)
Definition try_except {S A} (m : M S A) (h : exn -> M S A) : M S A :=
  fun s tr =>
    match m s tr with
    | (Ok a, s', tr') => (Ok a, s', tr')
    | (Raise e, s', tr') => h e s' tr'
    end.

(** One statement of a [try] block whose handler is [h]: run [m]; if it
    raises, the handler takes over, otherwise the block goes on with [k].
    The handler is given per statement because it reads local variables
    that the block reassigns. *)
Definition bind_try {S A B} (m : M S A) (h : exn -> M S B) (k : A -> M S B)
  : M S B :=
  fun s tr =>
    match m s tr with
    | (Ok a, s', tr') => k a s' tr'
    | (Raise e, s', tr') => h e s' tr'
    end.

Definition get_state {S} : M S S := fun s tr => (Ok s, s, tr).

(** The three components of a finished run. *)
Definition outcome {S A} (x : res A * S * list event) : res A := fst (fst x).
Definition final_state {S A} (x : res A * S * list event) : S := snd (fst x).
Definition final_trace {S A} (x : res A * S * list event) : list event :=
  snd x.

(** The value or exception of a pure expression, as a computation. *)
Definition lift {S A} (r : res A) : M S A := fun s tr => (r, s, tr).

(** A call to an oracle: the oracle answers from the calls made so far,
    and the call is added to the trace. *)
Definition call {S A} (ev : event) (oracle : list event -> res A) : M S A :=
  fun s tr => (oracle tr, s, tr ++ [ev]).

Declare Scope py_scope.
Delimit Scope py_scope with py.
Notation "x <- m ;; k" := (bind m (fun x => k))
  (at level 61, m at next level, right associativity) : py_scope.
Notation "m ;;; k" := (bind m (fun _ => k))
  (at level 61, right associativity) : py_scope.
Notation "'try' x <- m 'except' h ;; k" := (bind_try m h (fun x => k))
  (at level 61, x name, m at next level, h at next level,
   right associativity) : py_scope.
Open Scope py_scope.

(** The events of a trace that call the detector, and those that call
    the generation capability. *)
Definition is_detect (ev : event) : bool :=
  match ev with Detect _ => true | _ => false end.

Definition is_generate (ev : event) : bool :=
  match ev with Generate _ _ _ => true | _ => false end.

Definition detect_calls (tr : list event) : list event := filter is_detect tr.

Definition generate_calls (tr : list event) : list event :=
  filter is_generate tr.

(** The str behind a value that is known to be a [str]. *)
Definition as_str (v : pyval) : pystr :=
  match v with PStr s => s | _ => [] end.

Definition is_none {A} (o : option A) : bool :=
  match o with None => true | Some _ => false end.

(* ================================================================== *)
(** * [src/handler.py]: the batch surface *)

Module Handler.

(** The items of the dict display at [handler.py:15-56]. *)
Definition LANGUAGE_CODE_MAP_items : list (pystr * pystr) :=
  [ (lit "en", lit "eng_Latn");
    (lit "ar", lit "arb_Arab");
    (lit "fr", lit "fra_Latn");
    (lit "es", lit "spa_Latn");
    (lit "de", lit "deu_Latn");
    (lit "ru", lit "rus_Cyrl");
    (lit "zh", lit "zho_Hans");
    (lit "ja", lit "jpn_Jpan");
    (lit "pt", lit "por_Latn");
    (lit "it", lit "ita_Latn");
    (lit "nl", lit "nld_Latn");
    (lit "cs", lit "ces_Latn");
    (lit "pl", lit "pol_Latn");
    (lit "tr", lit "tur_Latn");
    (lit "ko", lit "kor_Hang");
    (lit "uk", lit "ukr_Cyrl");
    (lit "vi", lit "vie_Latn");
    (lit "id", lit "ind_Latn");
    (lit "fa", lit "fas_Arab");
    (lit "sv", lit "swe_Latn");
    (lit "hu", lit "hun_Latn");
    (lit "fi", lit "fin_Latn");
    (lit "da", lit "dan_Latn");
    (lit "no", lit "nob_Latn");
    (lit "he", lit "heb_Hebr");
    (lit "th", lit "tha_Thai");
    (lit "hi", lit "hin_Deva");
    (lit "bg", lit "bul_Cyrl");
    (lit "el", lit "ell_Grek");
    (lit "ro", lit "ron_Latn");
    (lit "sk", lit "slk_Latn");
    (lit "lt", lit "lit_Latn");
    (lit "lv", lit "lvs_Latn");
    (lit "et", lit "est_Latn");
    (lit "sr", lit "srp_Cyrl");
    (lit "hr", lit "hrv_Latn");
    (lit "sl", lit "slv_Latn");
    (lit "ca", lit "cat_Latn");
    (lit "ms", lit "zsm_Latn");
    (lit "ur", lit "urd_Arab") ].

(** The module globals: [LANGUAGE_CODE_MAP], [model], [tokenizer].  The
    model object is opaque; [None] is Python's [None]. *)
Record globals : Type := {
  LANGUAGE_CODE_MAP : dict pystr;
  model : option unit;
  tokenizer : option tokenizer_t
}.

(** The dict the display evaluates to. *)
Definition LANGUAGE_CODE_MAP_value : dict pystr :=
  dict_display LANGUAGE_CODE_MAP_items.

(** The globals once the assignments at [handler.py:15-61] have run. *)
Definition module_globals : globals :=
  {| LANGUAGE_CODE_MAP := LANGUAGE_CODE_MAP_value;
     model := None;
     tokenizer := None |}.

Definition set_tokenizer (t : option tokenizer_t) : M globals unit :=
  fun g tr =>
    (Ok tt,
     {| LANGUAGE_CODE_MAP := LANGUAGE_CODE_MAP g;
        model := model g;
        tokenizer := t |},
     tr).

Definition set_model (m : option unit) : M globals unit :=
  fun g tr =>
    (Ok tt,
     {| LANGUAGE_CODE_MAP := LANGUAGE_CODE_MAP g;
        model := m;
        tokenizer := tokenizer g |},
     tr).

(** [load_model()], [handler.py:63-76]. *)
Definition load_model (caps : capabilities) : M globals (unit * tokenizer_t) :=
  tok <- call LoadTokenizer (load_tokenizer caps) ;;
  set_tokenizer (Some tok) ;;;
  m <- call LoadModel (load_seq2seq caps) ;;
  set_model (Some m) ;;;
  ret (m, tok).

(** [LANGUAGE_CODE_MAP['en'], 'en'], the fallback of [detect_language]. *)
Definition english_fallback : M globals (pystr * pystr) :=
  g <- get_state ;;
  en <- lift (dict_getitem (LANGUAGE_CODE_MAP g) (PStr (lit "en"))) ;;
  ret (en, lit "en").

(** [detect_language(text)], [handler.py:78-102]: the locale tag and the
    short code. *)
Definition detect_language (caps : capabilities) (text : pystr)
  : M globals (pystr * pystr) :=
  try_except
    (lang_code <- call (Detect text) (fun tr => detect caps tr text) ;;
     g <- get_state ;;
     nllb_code <- lift (dict_get (LANGUAGE_CODE_MAP g) (PStr lang_code)) ;;
     match nllb_code with
     | Some c => if str_truthy c then ret (c, lang_code) else english_fallback
     | None => english_fallback
     end)
    (fun _ => english_fallback).

(** [tokenizer.src_lang = code]. *)
Definition set_src_lang (code : pystr) : M globals unit :=
  g <- get_state ;;
  match tokenizer g with
  | Some _ => set_tokenizer (Some {| src_lang := code |})
  | None => raise (AttributeError (lit "NoneType") (lit "src_lang"))
  end.

(** The [except] clause of [translate], [handler.py:177-183], with the
    value [source_language] has when the exception is raised. *)
Definition translate_except (source_language target_language : pyval)
    (e : exn) : M globals pyval :=
  ret (PDict
         [ (lit "error", PStr (lit "Translation error: " ++ str_exn e));
           (lit "source_language",
             py_or source_language (PStr (lit "unknown")));
           (lit "target_language", target_language) ]).

(** [translate(text, target_language, source_language)],
    [handler.py:104-183]. *)
Definition translate (caps : capabilities)
    (text target_language source_language : pyval) : M globals pyval :=
  g <- get_state ;;
  (if is_none (model g) || is_none (tokenizer g)
   then
     loaded <- load_model caps ;;
     set_model (Some (fst loaded)) ;;;
     set_tokenizer (Some (snd loaded))
   else ret tt) ;;;
  try stripped <- lift (py_strip text)
  except translate_except source_language target_language ;;
  if negb (str_truthy stripped)
  then ret (PDict
              [ (lit "translated_text", PStr (lit ""));
                (lit "source_language",
                  py_or source_language (PStr (lit "en"))) ])
  else
    try target_language_code <-
      (g <- get_state ;;
       present <- lift (dict_contains (LANGUAGE_CODE_MAP g) target_language) ;;
       if negb present
       then lift (dict_getitem (LANGUAGE_CODE_MAP g) (PStr (lit "en")))
       else lift (dict_getitem (LANGUAGE_CODE_MAP g) target_language))
    except translate_except source_language target_language ;;
    try src <-
      (match source_language with
       | PNone =>
           d <- detect_language caps (as_str text) ;;
           ret (fst d, PStr (snd d))
       | _ =>
           g <- get_state ;;
           code <- lift (dict_get (LANGUAGE_CODE_MAP g) source_language) ;;
           match code with
           | None =>
               d <- detect_language caps (as_str text) ;;
               ret (fst d, PStr (snd d))
           | Some c => ret (c, source_language)
           end
       end)
    except translate_except source_language target_language ;;
    let source_language_code := fst src in
    let source_language := snd src in
    try _ <- set_src_lang source_language_code
    except translate_except source_language target_language ;;
    try translation <-
      call (Generate source_language_code target_language_code (as_str text))
        (fun tr =>
           generate caps tr source_language_code target_language_code
             (as_str text))
    except translate_except source_language target_language ;;
    ret (PDict
           [ (lit "translated_text", PStr translation);
             (lit "source_language", source_language);
             (lit "target_language", target_language) ]).

(** [handler(event)], [handler.py:186-218]. *)
Definition handler (caps : capabilities) (event : pyval) : M globals pyval :=
  try_except
    (input_data <- lift (py_get_default event (lit "input") (PDict [])) ;;
     text <- lift (py_get input_data (lit "text")) ;;
     target_language <- lift (py_get input_data (lit "target_language")) ;;
     source_language <- lift (py_get input_data (lit "source_language")) ;;
     if negb (truthy text)
     then ret (PDict
                 [ (lit "error", PStr (lit "Missing required field: text")) ])
     else if negb (truthy target_language)
     then ret (PDict
                 [ (lit "error",
                     PStr (lit "Missing required field: target_language")) ])
     else translate caps text target_language source_language)
    (fun e =>
       ret (PDict
              [ (lit "error",
                  PStr (lit "Error processing request: " ++ str_exn e)) ])).

(** The module body after the definitions, [handler.py:221]: the model
    is loaded before the handler is started. *)
Definition startup (caps : capabilities) : M globals unit :=
  load_model caps ;;; ret tt.

(** [model is None or tokenizer is None] is false. *)
Definition is_loaded (g : globals) : bool :=
  negb (is_none (model g) || is_none (tokenizer g)).

(** What holds of the globals while the service runs: the table is the
    one of the display, and the model is loaded. *)
Definition ready (g : globals) : Prop :=
  LANGUAGE_CODE_MAP g = LANGUAGE_CODE_MAP_value /\ is_loaded g = true.

(** The globals and traces of a running service: the module body has
    run to its end, then the handler has been called any number of
    times. *)
Inductive reachable (caps : capabilities) : globals -> list event -> Prop :=
| reach_startup g tr :
    startup caps module_globals [] = (Ok tt, g, tr) ->
    reachable caps g tr
| reach_handler g tr event r g' tr' :
    reachable caps g tr ->
    handler caps event g tr = (r, g', tr') ->
    reachable caps g' tr'.

End Handler.

(* ================================================================== *)
(** * [src/models/nllb_model.py]: the translator class *)

Module NllbModel.

(** The items of the dict display at [nllb_model.py:21-62]. *)
Definition LANGUAGE_CODE_MAP_items : list (pystr * pystr) :=
  [ (lit "en", lit "eng_Latn");
    (lit "ar", lit "arb_Arab");
    (lit "fr", lit "fra_Latn");
    (lit "es", lit "spa_Latn");
    (lit "de", lit "deu_Latn");
    (lit "ru", lit "rus_Cyrl");
    (lit "zh", lit "zho_Hans");
    (lit "ja", lit "jpn_Jpan");
    (lit "pt", lit "por_Latn");
    (lit "it", lit "ita_Latn");
    (lit "nl", lit "nld_Latn");
    (lit "cs", lit "ces_Latn");
    (lit "pl", lit "pol_Latn");
    (lit "tr", lit "tur_Latn");
    (lit "ko", lit "kor_Hang");
    (lit "uk", lit "ukr_Cyrl");
    (lit "vi", lit "vie_Latn");
    (lit "id", lit "ind_Latn");
    (lit "fa", lit "fas_Arab");
    (lit "sv", lit "swe_Latn");
    (lit "hu", lit "hun_Latn");
    (lit "fi", lit "fin_Latn");
    (lit "da", lit "dan_Latn");
    (lit "no", lit "nob_Latn");
    (lit "he", lit "heb_Hebr");
    (lit "th", lit "tha_Thai");
    (lit "hi", lit "hin_Deva");
    (lit "bg", lit "bul_Cyrl");
    (lit "el", lit "ell_Grek");
    (lit "ro", lit "ron_Latn");
    (lit "sk", lit "slk_Latn");
    (lit "lt", lit "lit_Latn");
    (lit "lv", lit "lvs_Latn");
    (lit "et", lit "est_Latn");
    (lit "sr", lit "srp_Cyrl");
    (lit "hr", lit "hrv_Latn");
    (lit "sl", lit "slv_Latn");
    (lit "ca", lit "cat_Latn");
    (lit "ms", lit "zsm_Latn");
    (lit "ur", lit "urd_Arab") ].

(** An instance of [NLLBTranslator]: its tokenizer; the device and the
    model are opaque. *)
Record NLLBTranslator : Type := { tokenizer : tokenizer_t }.

(** The class attribute [NLLBTranslator.LANGUAGE_CODE_MAP] and the module
    global [translator], the singleton.  Every [self] of the program is
    that one object, so a method reaches it through the global. *)
Record globals : Type := {
  LANGUAGE_CODE_MAP : dict pystr;
  translator : option NLLBTranslator
}.

(** The dict the display evaluates to. *)
Definition LANGUAGE_CODE_MAP_value : dict pystr :=
  dict_display LANGUAGE_CODE_MAP_items.

(** The globals once the class statement and [translator = None] have
    run. *)
Definition module_globals : globals :=
  {| LANGUAGE_CODE_MAP := LANGUAGE_CODE_MAP_value;
     translator := None |}.

Definition set_translator (t : option NLLBTranslator) : M globals unit :=
  fun g tr =>
    (Ok tt, {| LANGUAGE_CODE_MAP := LANGUAGE_CODE_MAP g; translator := t |},
     tr).

(** [NLLBTranslator()], [nllb_model.py:64-76]. *)
Definition init (caps : capabilities) : M globals NLLBTranslator :=
  tok <- call LoadTokenizer (load_tokenizer caps) ;;
  call LoadModel (load_seq2seq caps) ;;;
  ret {| tokenizer := tok |}.

(** [self.LANGUAGE_CODE_MAP['en']]. *)
Definition english_fallback : M globals pystr :=
  g <- get_state ;;
  lift (dict_getitem (LANGUAGE_CODE_MAP g) (PStr (lit "en"))).

(** [self.detect_language(text)], [nllb_model.py:78-102]: the locale
    tag. *)
Definition detect_language (caps : capabilities) (text : pystr)
  : M globals pystr :=
  try_except
    (lang_code <- call (Detect text) (fun tr => detect caps tr text) ;;
     g <- get_state ;;
     nllb_code <- lift (dict_get (LANGUAGE_CODE_MAP g) (PStr lang_code)) ;;
     match nllb_code with
     | Some c => if str_truthy c then ret c else english_fallback
     | None => english_fallback
     end)
    (fun _ => english_fallback).

(** [self.tokenizer.src_lang = code]. *)
Definition set_src_lang (code : pystr) : M globals unit :=
  g <- get_state ;;
  match translator g with
  | Some _ => set_translator (Some {| tokenizer := {| src_lang := code |} |})
  | None => raise (AttributeError (lit "NoneType") (lit "tokenizer"))
  end.

(** [self.translate(text, target_language, source_language)],
    [nllb_model.py:104-162].  The second argument of [dict.get] at line
    133 is evaluated before the call, as every argument is. *)
Definition translate (caps : capabilities) (text target_language : pystr)
    (source_language : option pystr) : M globals pystr :=
  try_except
    (if negb (str_truthy (strip text))
     then ret (lit "")
     else
       g <- get_state ;;
       present <-
         lift (dict_contains (LANGUAGE_CODE_MAP g) (PStr target_language)) ;;
       target_language_code <-
         (if negb present
          then lift (dict_getitem (LANGUAGE_CODE_MAP g) (PStr (lit "en")))
          else lift (dict_getitem (LANGUAGE_CODE_MAP g)
                       (PStr target_language))) ;;
       source_language_code <-
         match source_language with
         | None => detect_language caps text
         | Some s =>
             default <- detect_language caps text ;;
             g <- get_state ;;
             lift (dict_get_default (LANGUAGE_CODE_MAP g) (PStr s) default)
         end ;;
       set_src_lang source_language_code ;;;
       translation <-
         call (Generate source_language_code target_language_code text)
           (fun tr =>
              generate caps tr source_language_code target_language_code
                text) ;;
       ret translation)
    (fun e => ret (lit "Translation error: " ++ str_exn e)).

(** [get_translator()], [nllb_model.py:167-178]. *)
Definition get_translator (caps : capabilities) : M globals NLLBTranslator :=
  g <- get_state ;;
  match translator g with
  | None =>
      t <- init caps ;;
      set_translator (Some t) ;;;
      ret t
  | Some t => ret t
  end.

(** The table is the one of the class statement, and the singleton
    exists. *)
Definition ready (g : globals) : Prop :=
  LANGUAGE_CODE_MAP g = LANGUAGE_CODE_MAP_value /\
  is_none (translator g) = false.

End NllbModel.

(* ================================================================== *)
(** * [src/api/schemas.py] and [src/api/endpoints.py]: the REST surface *)

Module TranslationRequest.
Record t : Type := {
  text : pystr;
  target_language : pystr;
  source_language : option pystr
}.
End TranslationRequest.

Module TranslationResponse.
Record t : Type := {
  translated_text : pystr;
  source_language : pystr;
  target_language : pystr
}.
End TranslationResponse.

Module Endpoints.

(** What the framework sends back: the response model with the status of
    the route, or the status and detail of a raised [HTTPException]. *)
Inductive http_result : Type :=
| Response (status_code : Z) (body : TranslationResponse.t)
| HTTPException (status_code : Z) (detail : pystr).

Definition status_of (r : http_result) : Z :=
  match r with
  | Response c _ => c
  | HTTPException c _ => c
  end.

(** [source_language_code.split('_')[0]], [endpoints.py:31-32]: the part
    of the locale tag before the first ['_']. *)
Definition extract_iso_code (source_language_code : pystr) : pystr :=
  nth 0 (split underscore source_language_code) [].

(** The three [except] clauses of the route, [endpoints.py:48-58], in
    order. *)
Definition translate_except (e : exn) : M NllbModel.globals http_result :=
  match e with
  | UnsupportedLanguageError _ => ret (HTTPException 400 (str_exn e))
  | TranslationError _ => ret (HTTPException 500 (str_exn e))
  | _ =>
      ret (HTTPException 500
             (lit "An unexpected error occurred: " ++ str_exn e))
  end.

(** [POST /translate], [endpoints.py:13-58]. *)
Definition translate (caps : capabilities) (request : TranslationRequest.t)
  : M NllbModel.globals http_result :=
  try_except
    (NllbModel.get_translator caps ;;;
     source_language <-
       match TranslationRequest.source_language request with
       | None =>
           source_language_code <-
             NllbModel.detect_language caps (TranslationRequest.text request) ;;
           ret (extract_iso_code source_language_code)
       | Some s => ret s
       end ;;
     translated_text <-
       NllbModel.translate caps (TranslationRequest.text request)
         (TranslationRequest.target_language request) (Some source_language) ;;
     ret (Response 200
            {| TranslationResponse.translated_text := translated_text;
               TranslationResponse.source_language := source_language;
               TranslationResponse.target_language :=
                 TranslationRequest.target_language request |}))
    translate_except.

(** [GET /health], [endpoints.py:60-65]. *)
Definition health_check : Z * list (pystr * pystr) :=
  (200%Z, [ (lit "status", lit "ok") ]).

End Endpoints.

(* ================================================================== *)
(** * [src/main.py]: the application *)

Module Main.

(** [GET /], [main.py:42-47]. *)
Definition root : list (pystr * pystr) :=
  [ (lit "message", lit "RQG Translation API is running");
    (lit "documentation", lit "/docs") ].

(** [startup_event()], [main.py:50-60]: the singleton is created when
    the application starts; a failure is logged and the application
    starts all the same. *)
Definition startup_event (caps : capabilities) : M NllbModel.globals unit :=
  try_except
    (NllbModel.get_translator caps ;;; ret tt)
    (fun _ => ret tt).

End Main.


(* ================================================================== *)
(** * Definitions used in the statements *)

(** A computation keeps a property of the state, whatever it returns
    or raises. *)
Definition maintains {S A} (I : S -> Prop) (m : M S A) : Prop :=
  forall s tr, I s -> I (final_state (m s tr)).

(** No string occurs twice in a list. *)
Fixpoint str_nodupb (l : list pystr) : bool :=
  match l with
  | [] => true
  | x :: r => negb (existsb (str_eqb x) r) && str_nodupb r
  end.

(** What detection resolves to over a table [T]: the tag and short code
    of the detected language when the detector returns a code of the
    table whose tag is not empty, English otherwise. *)
Definition resolve_detected (T : dict pystr) (en : pystr) (r : res pystr)
  : pystr * pystr :=
  match r with
  | Ok c =>
      match dict_lookup T c with
      | Some tag => if str_truthy tag then (tag, c) else (en, lit "en")
      | None => (en, lit "en")
      end
  | Raise _ => (en, lit "en")
  end.

(** Target resolution: the tag of the requested code, English when the
    table has no such code. *)
Definition resolve_target (T : dict pystr) (en : pystr)
    (target_language : pyval) : pystr :=
  match find_key T target_language with
  | Some c => c
  | None => en
  end.

(** Source resolution of the batch surface over a table [T], from the
    trace [tr]: the tag, the source language reported, and the calls
    made. *)
Definition batch_source (caps : capabilities) (T : dict pystr) (en : pystr)
    (tr : list event) (text : pystr) (source_language : pyval)
  : pystr * pyval * list event :=
  match find_key T source_language with
  | Some c => (c, source_language, [])
  | None =>
      let d := resolve_detected T en (detect caps tr text) in
      (fst d, PStr (snd d), [Detect text])
  end.

(** The object the batch [translate] returns after the generation
    step. *)
Definition batch_result (target_language source_language : pyval)
    (r : res pystr) : pyval :=
  match r with
  | Ok translation =>
      PDict [ (lit "translated_text", PStr translation);
              (lit "source_language", source_language);
              (lit "target_language", target_language) ]
  | Raise e =>
      PDict [ (lit "error", PStr (lit "Translation error: " ++ str_exn e));
              (lit "source_language",
                py_or source_language (PStr (lit "unknown")));
              (lit "target_language", target_language) ]
  end.

(** Source resolution of the translator class: the tag of an explicit
    code of the table, the detected tag otherwise. *)
Definition rest_source (caps : capabilities) (T : dict pystr) (en : pystr)
    (tr : list event) (text : pystr) (source_language : option pystr)
  : pystr :=
  let detected := fst (resolve_detected T en (detect caps tr text)) in
  match source_language with
  | None => detected
  | Some s =>
      match dict_lookup T s with
      | Some c => c
      | None => detected
      end
  end.

(** The string the method [translate] returns after the generation
    step. *)
Definition rest_result (r : res pystr) : pystr :=
  match r with
  | Ok translation => translation
  | Raise e => lit "Translation error: " ++ str_exn e
  end.

(** The input payload of an event, [event.get("input", {})], and a
    field of a payload, [input_data.get(k)]. *)
Definition event_input (event : list (pystr * pyval)) : pyval :=
  match dict_lookup event (lit "input") with
  | Some v => v
  | None => PDict []
  end.

Definition field (input_data : list (pystr * pyval)) (k : pystr) : pyval :=
  match dict_lookup input_data k with
  | Some v => v
  | None => PNone
  end.

(** The object of the early return at [handler.py:127], the only
    place of the batch surface that builds an object of two keys. *)
Definition empty_translation (source_language : pyval) : pyval :=
  PDict [ (lit "translated_text", PStr (lit ""));
          (lit "source_language", source_language) ].

(** A run that returns an object of exactly two keys. *)
Definition two_keys {S} (x : res pyval * S * list event) : Prop :=
  exists a b, outcome x = Ok (PDict [a; b]).

(** A source language of the REST surface as the batch surface receives
    it. *)
Definition source_value (source_language : option pystr) : pyval :=
  match source_language with
  | None => PNone
  | Some s => PStr s
  end.

(** Capabilities for the examples: loading succeeds, the detector
    answers ["en"], generation returns a fixed text. *)
Definition sample_capabilities : capabilities :=
  {| load_tokenizer := fun _ => Ok {| src_lang := lit "eng_Latn" |};
     load_seq2seq := fun _ => Ok tt;
     detect := fun _ _ => Ok (lit "en");
     generate := fun _ _ _ _ => Ok (lit "Bonjour") |}.

(** The same, with a generation step that fails. *)
Definition failing_generation : capabilities :=
  {| load_tokenizer := fun _ => Ok {| src_lang := lit "eng_Latn" |};
     load_seq2seq := fun _ => Ok tt;
     detect := fun _ _ => Ok (lit "en");
     generate := fun _ _ _ _ => Raise (LibraryError (lit "CUDA out of memory")) |}.

(** Globals of the batch surface with the model loaded. *)
Definition loaded_globals : Handler.globals :=
  {| Handler.LANGUAGE_CODE_MAP := Handler.LANGUAGE_CODE_MAP_value;
     Handler.model := Some tt;
     Handler.tokenizer := Some {| src_lang := lit "eng_Latn" |} |}.

(** Globals of the REST surface with the singleton created. *)
Definition serving_globals : NllbModel.globals :=
  {| NllbModel.LANGUAGE_CODE_MAP := NllbModel.LANGUAGE_CODE_MAP_value;
     NllbModel.translator :=
       Some {| NllbModel.tokenizer := {| src_lang := lit "eng_Latn" |} |} |}.

(** A computation raises no exception but those of [P]. *)
Definition raises_only {S A} (P : exn -> Prop) (m : M S A) : Prop :=
  forall s tr e s' tr', m s tr = (Raise e, s', tr') -> P e.

(** The exceptions the route answers through its last [except] clause:
    all but the two classes named by the clauses before it. *)
Definition unexpected (e : exn) : Prop :=
  match e with
  | UnsupportedLanguageError _ | TranslationError _ => False
  | _ => True
  end.

(** Loading the tokenizer or the model fails with an exception of the
    library only, never with one of the classes of
    [src/utils/exceptions.py]. *)
Definition library_errors_only (caps : capabilities) : Prop :=
  (forall tr e, load_tokenizer caps tr = Raise e -> unexpected e) /\
  (forall tr e, load_seq2seq caps tr = Raise e -> unexpected e).

(** [tag] is the locale tag of some short code of the table [T]. *)
Definition is_tag (T : dict pystr) (tag : pystr) : Prop :=
  exists k, dict_lookup T k = Some tag.

(** A call a translation of [text] may make on a service that is ready:
    the detector on [text], or the generation capability on [text]
    between two tags of the table. *)
Definition translation_call (T : dict pystr) (text : pystr) (ev : event)
  : Prop :=
  match ev with
  | Detect x => x = text
  | Generate s t x => is_tag T s /\ is_tag T t /\ x = text
  | LoadTokenizer | LoadModel => False
  end.

(** An object has the key [k]. *)
Definition has_key (v : pyval) (k : string) : bool :=
  match v with
  | PDict d =>
      match dict_lookup d (lit k) with
      | Some _ => true
      | None => false
      end
  | _ => false
  end.

(** Capabilities whose tokenizer fails to load. *)
Definition failing_load : capabilities :=
  {| load_tokenizer := fun _ => Raise (LibraryError (lit "out of disk space"));
     load_seq2seq := fun _ => Ok tt;
     detect := fun _ _ => Ok (lit "en");
     generate := fun _ _ _ _ => Ok (lit "Bonjour") |}.

(* ================================================================== *)
(** * Strings and dictionaries *)

Arguments lit : simpl never.

Lemma str_eqb_eq (a b : pystr) : str_eqb a b = true <-> a = b.
Proof.
  revert b; induction a as [|x a IH]; intros [|y b]; simpl;
    try (split; [discriminate | congruence]); try tauto.
  rewrite andb_true_iff, N.eqb_eq, IH. split.
  - intros [-> ->]; reflexivity.
  - intros H; injection H; auto.
Qed.

Lemma str_eqb_refl (a : pystr) : str_eqb a a = true.
Proof. apply str_eqb_eq; reflexivity. Qed.

Lemma str_eqb_neq (a b : pystr) : str_eqb a b = false <-> a <> b.
Proof.
  rewrite <- str_eqb_eq. destruct (str_eqb a b); split; congruence.
Qed.

Lemma str_truthy_nonempty (s : pystr) : str_truthy s = true <-> s <> [].
Proof. destruct s; simpl; split; congruence. Qed.

Lemma lstrip_nil_iff (s : pystr) : lstrip s = [] <-> forallb isspace s = true.
Proof.
  induction s as [|c s IH]; simpl; [tauto|].
  destruct (isspace c); simpl; [exact IH | split; discriminate].
Qed.

Lemma lstrip_all_space (s : pystr) :
  forallb isspace (lstrip s) = true -> lstrip s = [].
Proof.
  induction s as [|c s IH]; simpl; [reflexivity|].
  destruct (isspace c) eqn:E; [exact IH|].
  simpl. rewrite E. discriminate.
Qed.

Lemma forallb_rev {A} (f : A -> bool) (l : list A) :
  forallb f (rev l) = forallb f l.
Proof.
  induction l as [|x l IH]; simpl; [reflexivity|].
  rewrite forallb_app, IH. simpl. rewrite andb_true_r. apply andb_comm.
Qed.

(** [not s.strip()] holds exactly of the strings made of whitespace
    only, the empty one included. *)
Lemma strip_nil_iff (s : pystr) : strip s = [] <-> forallb isspace s = true.
Proof.
  unfold strip, rstrip. split.
  - intros H.
    assert (H1 : lstrip (rev (lstrip s)) = []).
    { destruct (lstrip (rev (lstrip s))); [reflexivity|].
      apply (f_equal (@List.length N)) in H. rewrite length_rev in H.
      discriminate. }
    apply lstrip_nil_iff in H1. rewrite forallb_rev in H1.
    apply lstrip_all_space in H1. apply lstrip_nil_iff; assumption.
  - intros H. apply lstrip_nil_iff in H. rewrite H. reflexivity.
Qed.

Lemma split_nonempty (sep : N) (s : pystr) : split sep s <> [].
Proof.
  induction s as [|c s IH]; simpl; [discriminate|].
  destruct (N.eqb c sep); [discriminate|].
  destruct (split sep s); discriminate.
Qed.

Lemma dict_lookup_In {V} (d : dict V) (k : pystr) (v : V) :
  dict_lookup d k = Some v -> In (k, v) d.
Proof.
  induction d as [|[k' v'] d IH]; simpl; [discriminate|].
  destruct (str_eqb k' k) eqn:E.
  - apply str_eqb_eq in E. intros H; injection H as ->. left; congruence.
  - intros H; right; auto.
Qed.

Lemma forallb_lookup {V} (p : pystr * V -> bool) (d : dict V) k v :
  forallb p d = true -> dict_lookup d k = Some v -> p (k, v) = true.
Proof.
  intros H L. rewrite forallb_forall in H. apply H, dict_lookup_In, L.
Qed.

Lemma existsb_str_eqb_In (x : pystr) (l : list pystr) :
  existsb (str_eqb x) l = true <-> In x l.
Proof.
  rewrite existsb_exists. split.
  - intros [y [Hy E]]. apply str_eqb_eq in E. congruence.
  - intros H. exists x. split; [assumption | apply str_eqb_refl].
Qed.

Lemma str_nodupb_NoDup (l : list pystr) : str_nodupb l = true -> NoDup l.
Proof.
  induction l as [|x l IH]; simpl; [constructor|].
  rewrite andb_true_iff, negb_true_iff. intros [Hx Hl].
  constructor; [|auto].
  intros Hin. apply existsb_str_eqb_In in Hin. congruence.
Qed.

(** In a dict whose values are pairwise distinct, a value determines
    its key. *)
Lemma dict_lookup_injective {V} (d : dict V) k1 k2 v :
  NoDup (List.map snd d) ->
  dict_lookup d k1 = Some v -> dict_lookup d k2 = Some v -> k1 = k2.
Proof.
  induction d as [|[k' v'] d IH]; simpl; [discriminate|].
  intros ND. inversion ND as [|? ? Hnin ND']; subst.
  destruct (str_eqb k' k1) eqn:E1, (str_eqb k' k2) eqn:E2; intros H1 H2.
  - apply str_eqb_eq in E1, E2. congruence.
  - injection H1 as ->. exfalso. apply Hnin.
    apply dict_lookup_In in H2. apply (in_map snd) in H2. exact H2.
  - injection H2 as ->. exfalso. apply Hnin.
    apply dict_lookup_In in H1. apply (in_map snd) in H1. exact H1.
  - eauto.
Qed.

(* ================================================================== *)
(** * Running a computation step by step *)

Section Run.
Context {S A B : Type}.

Lemma bind_ok (m : M S A) (k : A -> M S B) s tr a s' tr' :
  m s tr = (Ok a, s', tr') -> bind m k s tr = k a s' tr'.
Proof. unfold bind. intros ->. reflexivity. Qed.

Lemma bind_raise (m : M S A) (k : A -> M S B) s tr e s' tr' :
  m s tr = (Raise e, s', tr') -> bind m k s tr = (Raise e, s', tr').
Proof. unfold bind. intros ->. reflexivity. Qed.

Lemma bind_try_ok (m : M S A) (h : exn -> M S B) (k : A -> M S B)
    s tr a s' tr' :
  m s tr = (Ok a, s', tr') -> bind_try m h k s tr = k a s' tr'.
Proof. unfold bind_try. intros ->. reflexivity. Qed.

Lemma bind_try_raise (m : M S A) (h : exn -> M S B) (k : A -> M S B)
    s tr e s' tr' :
  m s tr = (Raise e, s', tr') -> bind_try m h k s tr = h e s' tr'.
Proof. unfold bind_try. intros ->. reflexivity. Qed.

Lemma try_except_ok (m : M S A) (h : exn -> M S A) s tr a s' tr' :
  m s tr = (Ok a, s', tr') -> try_except m h s tr = (Ok a, s', tr').
Proof. unfold try_except. intros ->. reflexivity. Qed.

Lemma try_except_raise (m : M S A) (h : exn -> M S A) s tr e s' tr' :
  m s tr = (Raise e, s', tr') -> try_except m h s tr = h e s' tr'.
Proof. unfold try_except. intros ->. reflexivity. Qed.
End Run.

Ltac run :=
  unfold bind, bind_try, try_except, ret, raise, lift, call, get_state;
  cbn beta iota.

(* ------------------------------------------------------------------ *)
(** ** Properties of the state that every step keeps *)

Section Maintains.
Context {S : Type} (I : S -> Prop).

Lemma maintains_ret {A} (a : A) : maintains I (@ret S A a).
Proof. intros s tr H. exact H. Qed.

Lemma maintains_raise {A} (e : exn) : maintains I (@raise S A e).
Proof. intros s tr H. exact H. Qed.

Lemma maintains_lift {A} (r : res A) : maintains I (@lift S A r).
Proof. intros s tr H. exact H. Qed.

Lemma maintains_call {A} ev (oracle : list event -> res A) :
  maintains I (@call S A ev oracle).
Proof. intros s tr H. exact H. Qed.

Lemma maintains_get_state : maintains I (@get_state S).
Proof. intros s tr H. exact H. Qed.

Lemma maintains_bind {A B} (m : M S A) (k : A -> M S B) :
  maintains I m -> (forall a, maintains I (k a)) -> maintains I (bind m k).
Proof.
  intros Hm Hk s tr H. unfold bind. specialize (Hm s tr H).
  destruct (m s tr) as [[[a|e] s'] tr']; unfold final_state in *;
    simpl in *; [apply Hk|]; assumption.
Qed.

Lemma maintains_bind_try {A B} (m : M S A) (h : exn -> M S B)
    (k : A -> M S B) :
  maintains I m -> (forall e, maintains I (h e)) ->
  (forall a, maintains I (k a)) -> maintains I (bind_try m h k).
Proof.
  intros Hm Hh Hk s tr H. unfold bind_try. specialize (Hm s tr H).
  destruct (m s tr) as [[[a|e] s'] tr']; unfold final_state in *;
    simpl in *; [apply Hk | apply Hh]; assumption.
Qed.

Lemma maintains_try_except {A} (m : M S A) (h : exn -> M S A) :
  maintains I m -> (forall e, maintains I (h e)) ->
  maintains I (try_except m h).
Proof.
  intros Hm Hh s tr H. unfold try_except. specialize (Hm s tr H).
  destruct (m s tr) as [[[a|e] s'] tr']; unfold final_state in *;
    simpl in *; [|apply Hh]; assumption.
Qed.
End Maintains.

(** Breaks a goal [maintains I m] down along the structure of [m]. *)
Ltac maintains_step :=
  match goal with
  | |- maintains _ (bind _ _) => apply maintains_bind; [|intros ?]
  | |- maintains _ (bind_try _ _ _) =>
      apply maintains_bind_try; [|intros ?|intros ?]
  | |- maintains _ (try_except _ _) =>
      apply maintains_try_except; [|intros ?]
  | |- maintains _ (ret _) => apply maintains_ret
  | |- maintains _ (raise _) => apply maintains_raise
  | |- maintains _ (lift _) => apply maintains_lift
  | |- maintains _ (call _ _) => apply maintains_call
  | |- maintains _ get_state => apply maintains_get_state
  | |- maintains _ (if ?b then _ else _) => destruct b
  | |- maintains _ (match ?x with _ => _ end) => destruct x
  end.

(* ================================================================== *)
(** * The language table *)

Lemma handler_display_keeps_items :
  Handler.LANGUAGE_CODE_MAP_value = Handler.LANGUAGE_CODE_MAP_items.
Proof. vm_compute. reflexivity. Qed.

Lemma rest_display_keeps_items :
  NllbModel.LANGUAGE_CODE_MAP_value = NllbModel.LANGUAGE_CODE_MAP_items.
Proof. vm_compute. reflexivity. Qed.

Lemma tables_equal :
  Handler.LANGUAGE_CODE_MAP_value = NllbModel.LANGUAGE_CODE_MAP_value.
Proof. vm_compute. reflexivity. Qed.

Lemma handler_lookup_en :
  dict_lookup Handler.LANGUAGE_CODE_MAP_value (lit "en")
  = Some (lit "eng_Latn").
Proof. vm_compute. reflexivity. Qed.

Lemma rest_lookup_en :
  dict_lookup NllbModel.LANGUAGE_CODE_MAP_value (lit "en")
  = Some (lit "eng_Latn").
Proof. vm_compute. reflexivity. Qed.

(** Every tag of the table is a non-empty string. *)
Lemma handler_tags_truthy k c :
  dict_lookup Handler.LANGUAGE_CODE_MAP_value k = Some c ->
  str_truthy c = true.
Proof.
  intros L.
  apply (forallb_lookup (fun kv => str_truthy (snd kv))
           Handler.LANGUAGE_CODE_MAP_value k c); [|exact L].
  vm_compute. reflexivity.
Qed.

Lemma table_keys_unique :
  NoDup (List.map fst Handler.LANGUAGE_CODE_MAP_items).
Proof. apply str_nodupb_NoDup. vm_compute. reflexivity. Qed.

Lemma table_tags_unique :
  NoDup (List.map snd Handler.LANGUAGE_CODE_MAP_items).
Proof. apply str_nodupb_NoDup. vm_compute. reflexivity. Qed.

(* ================================================================== *)
(** * The batch surface, run on a table that has English *)

Section HandlerRun.
Variable caps : capabilities.
Variable T : dict pystr.
Variable en : pystr.
Hypothesis T_en : dict_lookup T (lit "en") = Some en.

Lemma getitem_en : dict_getitem T (PStr (lit "en")) = Ok en.
Proof. unfold dict_getitem; simpl. rewrite T_en. reflexivity. Qed.

(** [detect_language] calls the detector once and never raises. *)
Lemma handler_detect_language_run g tr text :
  Handler.LANGUAGE_CODE_MAP g = T ->
  Handler.detect_language caps text g tr =
  (Ok (resolve_detected T en (detect caps tr text)), g,
   tr ++ [Detect text]).
Proof.
  intros HT. unfold Handler.detect_language, Handler.english_fallback.
  run. unfold dict_get.
  destruct (detect caps tr text) as [c|e]; simpl;
    rewrite ?HT, ?getitem_en; [|reflexivity].
  destruct (dict_lookup T c) as [tag|] eqn:L; simpl;
    rewrite ?HT, ?getitem_en; [|reflexivity].
  destruct (str_truthy tag); simpl; rewrite ?HT, ?getitem_en; reflexivity.
Qed.

(** [translate] on a text that is not blank, with the model loaded and
    hashable language arguments: what it returns, the globals it
    leaves and the calls it makes. *)
Lemma handler_translate_run g tr text tl sl :
  Handler.LANGUAGE_CODE_MAP g = T ->
  Handler.is_loaded g = true ->
  str_truthy (strip text) = true ->
  hashable tl = true ->
  hashable sl = true ->
  Handler.translate caps (PStr text) tl sl g tr =
  let tgt := resolve_target T en tl in
  let src := batch_source caps T en tr text sl in
  (Ok (batch_result tl (snd (fst src))
         (generate caps (tr ++ snd src) (fst (fst src)) tgt text)),
   {| Handler.LANGUAGE_CODE_MAP := Handler.LANGUAGE_CODE_MAP g;
      Handler.model := Handler.model g;
      Handler.tokenizer := Some {| src_lang := fst (fst src) |} |},
   (tr ++ snd src) ++ [Generate (fst (fst src)) tgt text]).
Proof.
  intros HT HL Hs Htl Hsl.
  assert (Htok : exists t, Handler.tokenizer g = Some t).
  { unfold Handler.is_loaded in HL. destruct (Handler.tokenizer g); eauto.
    rewrite orb_true_r in HL. discriminate. }
  destruct Htok as [tok Htok].
  unfold Handler.translate.
  erewrite bind_ok by reflexivity.
  unfold Handler.is_loaded in HL. apply negb_true_iff in HL. rewrite HL.
  erewrite bind_ok by reflexivity.
  erewrite bind_try_ok by reflexivity.
  rewrite Hs. cbn [negb as_str].
  match goal with
  | |- bind_try ?m _ _ ?s ?t = _ =>
      assert (Htgt : m s t = (Ok (resolve_target T en tl), s, t))
  end.
  { run. rewrite HT. unfold dict_contains, resolve_target.
    rewrite Htl. destruct (find_key T tl) eqn:F; cbn [negb]; cbn beta iota;
      [unfold dict_getitem; rewrite Htl, F | rewrite getitem_en];
      reflexivity. }
  erewrite bind_try_ok by exact Htgt. clear Htgt.
  match goal with
  | |- bind_try ?m _ _ ?s ?t = _ =>
      assert (Hsrc : m s t =
        (Ok (fst (batch_source caps T en tr text sl)), s,
         t ++ snd (batch_source caps T en tr text sl)))
  end.
  { unfold batch_source.
    destruct sl; try discriminate Hsl; run; unfold dict_get;
      cbn [hashable find_key]; rewrite ?HT;
      try (destruct (dict_lookup T s) as [c0|]; cbn beta iota;
           [cbn [fst snd]; rewrite app_nil_r; reflexivity|]);
      rewrite handler_detect_language_run by assumption; reflexivity. }
  erewrite bind_try_ok by exact Hsrc. clear Hsrc.
  cbv zeta.
  match goal with
  | |- bind_try ?m _ _ ?s ?t = _ =>
      assert (Hset : m s t =
        (Ok tt,
         {| Handler.LANGUAGE_CODE_MAP := Handler.LANGUAGE_CODE_MAP g;
            Handler.model := Handler.model g;
            Handler.tokenizer :=
              Some {| src_lang :=
                        fst (fst (batch_source caps T en tr text sl)) |} |},
         t))
  end.
  { unfold Handler.set_src_lang, Handler.set_tokenizer. run.
    rewrite Htok. reflexivity. }
  erewrite bind_try_ok by exact Hset. clear Hset.
  unfold bind_try, call, batch_result, Handler.translate_except, ret.
  destruct (generate caps _ _ _ _); reflexivity.
Qed.
End HandlerRun.

(** [translate] on a blank text, with the model loaded: the early
    return at [handler.py:125-127]; no capability is called and the
    globals are untouched. *)
Lemma handler_translate_blank caps g tr text tl sl :
  Handler.is_loaded g = true ->
  forallb isspace text = true ->
  Handler.translate caps (PStr text) tl sl g tr =
  (Ok (empty_translation (py_or sl (PStr (lit "en")))), g, tr).
Proof.
  intros HL Hb. apply strip_nil_iff in Hb.
  unfold Handler.translate.
  erewrite bind_ok by reflexivity.
  unfold Handler.is_loaded in HL. apply negb_true_iff in HL. rewrite HL.
  erewrite bind_ok by reflexivity.
  erewrite bind_try_ok by reflexivity.
  rewrite Hb. reflexivity.
Qed.

(* ================================================================== *)
(** * The translator class, run on a table that has English *)

Section RestRun.
Variable caps : capabilities.
Variable T : dict pystr.
Variable en : pystr.
Hypothesis T_en : dict_lookup T (lit "en") = Some en.

Lemma rest_detect_language_run g tr text :
  NllbModel.LANGUAGE_CODE_MAP g = T ->
  NllbModel.detect_language caps text g tr =
  (Ok (fst (resolve_detected T en (detect caps tr text))), g,
   tr ++ [Detect text]).
Proof.
  intros HT. unfold NllbModel.detect_language, NllbModel.english_fallback.
  run. unfold dict_get.
  destruct (detect caps tr text) as [c|e]; simpl;
    rewrite ?HT, ?(getitem_en T en T_en); [|reflexivity].
  destruct (dict_lookup T c) as [tag|] eqn:L; simpl;
    rewrite ?HT, ?(getitem_en T en T_en); [|reflexivity].
  destruct (str_truthy tag); simpl;
    rewrite ?HT, ?(getitem_en T en T_en); reflexivity.
Qed.

(** The method [translate] on a text that is not blank, with the
    singleton in place.  The detector is called whatever the source
    language is. *)
Lemma rest_translate_run g tr text tl sl :
  NllbModel.LANGUAGE_CODE_MAP g = T ->
  is_none (NllbModel.translator g) = false ->
  str_truthy (strip text) = true ->
  NllbModel.translate caps text tl sl g tr =
  let tgt := resolve_target T en (PStr tl) in
  let src := rest_source caps T en tr text sl in
  (Ok (rest_result (generate caps (tr ++ [Detect text]) src tgt text)),
   {| NllbModel.LANGUAGE_CODE_MAP := NllbModel.LANGUAGE_CODE_MAP g;
      NllbModel.translator :=
        Some {| NllbModel.tokenizer := {| src_lang := src |} |} |},
   (tr ++ [Detect text]) ++ [Generate src tgt text]).
Proof.
  intros HT Htr Hs.
  destruct (NllbModel.translator g) as [t0|] eqn:Et; [|discriminate].
  unfold NllbModel.translate. rewrite Hs. cbn [negb].
  cbv zeta.
  match goal with
  | |- try_except ?m _ ?s ?t = _ =>
      assert (Hm : m s t =
        (generate caps (tr ++ [Detect text])
           (rest_source caps T en tr text sl)
           (resolve_target T en (PStr tl)) text,
         {| NllbModel.LANGUAGE_CODE_MAP := NllbModel.LANGUAGE_CODE_MAP g;
            NllbModel.translator :=
              Some {| NllbModel.tokenizer :=
                        {| src_lang := rest_source caps T en tr text sl |} |} |},
         (tr ++ [Detect text])
           ++ [Generate (rest_source caps T en tr text sl)
                 (resolve_target T en (PStr tl)) text]));
      [|unfold try_except; rewrite Hm; unfold rest_result, ret;
        destruct (generate caps _ _ _ _); reflexivity]
  end.
  erewrite bind_ok by reflexivity.
  rewrite HT.
  assert (Htgt :
    (if negb match find_key T (PStr tl) with Some _ => true | None => false end
     then dict_getitem T (PStr (lit "en"))
     else dict_getitem T (PStr tl)) = Ok (resolve_target T en (PStr tl))).
  { unfold resolve_target.
    destruct (find_key T (PStr tl)) eqn:F; cbn [negb];
      [unfold dict_getitem; cbn [hashable]; rewrite F
      | rewrite (getitem_en T en T_en)]; reflexivity. }
  unfold dict_contains. cbn [hashable].
  erewrite bind_ok by reflexivity.
  match goal with
  | |- context [bind ?m _ g tr] =>
      assert (Htg : m g tr = (Ok (resolve_target T en (PStr tl)), g, tr))
  end.
  { destruct (find_key T (PStr tl)); cbn [negb] in *; unfold lift;
      rewrite Htgt; reflexivity. }
  erewrite bind_ok by exact Htg. clear Htg Htgt.
  match goal with
  | |- context [bind ?m _ g tr] =>
      assert (Hsrc : m g tr =
        (Ok (rest_source caps T en tr text sl), g, tr ++ [Detect text]))
  end.
  { unfold rest_source. destruct sl as [s|].
    - erewrite bind_ok by (apply rest_detect_language_run; exact HT).
      erewrite bind_ok by reflexivity.
      rewrite HT. unfold lift, dict_get_default. cbn [hashable find_key].
      destruct (dict_lookup T s); reflexivity.
    - apply rest_detect_language_run; exact HT. }
  erewrite bind_ok by exact Hsrc. clear Hsrc.
  match goal with
  | |- context [bind ?m _ g ?t] =>
      assert (Hset : m g t =
        (Ok tt,
         {| NllbModel.LANGUAGE_CODE_MAP := NllbModel.LANGUAGE_CODE_MAP g;
            NllbModel.translator :=
              Some {| NllbModel.tokenizer :=
                        {| src_lang := rest_source caps T en tr text sl |} |} |},
         t))
  end.
  { unfold NllbModel.set_src_lang, NllbModel.set_translator. run.
    rewrite Et. reflexivity. }
  erewrite bind_ok by exact Hset. clear Hset.
  unfold bind, call, ret.
  destruct (generate caps _ _ _ _) as [y|e]; rewrite ?HT; reflexivity.
Qed.
End RestRun.

(** The method [translate] on a blank text: the early return at
    [nllb_model.py:117-119], in any state. *)
Lemma rest_translate_blank caps g tr text tl sl :
  forallb isspace text = true ->
  NllbModel.translate caps text tl sl g tr = (Ok (lit ""), g, tr).
Proof.
  intros Hb. apply strip_nil_iff in Hb.
  unfold NllbModel.translate. rewrite Hb. reflexivity.
Qed.

(* ================================================================== *)
(** * What the operations keep of the globals *)

Ltac maintains_auto :=
  repeat (cbn beta zeta; first [ solve [auto] | maintains_step ]).

Section HandlerMaintains.
Variable I : Handler.globals -> Prop.
Hypothesis I_tokenizer :
  forall t, maintains I (Handler.set_tokenizer (Some t)).
Hypothesis I_model : forall m, maintains I (Handler.set_model (Some m)).
Variable caps : capabilities.

Lemma handler_load_model_maintains : maintains I (Handler.load_model caps).
Proof. unfold Handler.load_model. maintains_auto. Qed.

Lemma handler_english_fallback_maintains :
  maintains I Handler.english_fallback.
Proof. unfold Handler.english_fallback. maintains_auto. Qed.

Lemma handler_detect_language_maintains text :
  maintains I (Handler.detect_language caps text).
Proof.
  pose proof handler_english_fallback_maintains.
  unfold Handler.detect_language. maintains_auto.
Qed.

Lemma handler_set_src_lang_maintains code :
  maintains I (Handler.set_src_lang code).
Proof. unfold Handler.set_src_lang. maintains_auto. Qed.

Lemma handler_translate_maintains text tl sl :
  maintains I (Handler.translate caps text tl sl).
Proof.
  pose proof handler_load_model_maintains.
  pose proof handler_detect_language_maintains.
  pose proof handler_set_src_lang_maintains.
  unfold Handler.translate, Handler.translate_except. maintains_auto.
Qed.

Lemma handler_maintains event : maintains I (Handler.handler caps event).
Proof.
  pose proof handler_translate_maintains.
  unfold Handler.handler. maintains_auto.
Qed.

Lemma handler_startup_maintains : maintains I (Handler.startup caps).
Proof.
  pose proof handler_load_model_maintains.
  unfold Handler.startup. maintains_auto.
Qed.
End HandlerMaintains.

Section RestMaintains.
Variable I : NllbModel.globals -> Prop.
Hypothesis I_translator :
  forall t, maintains I (NllbModel.set_translator (Some t)).
Variable caps : capabilities.

Lemma rest_init_maintains : maintains I (NllbModel.init caps).
Proof. unfold NllbModel.init. maintains_auto. Qed.

Lemma rest_english_fallback_maintains :
  maintains I NllbModel.english_fallback.
Proof. unfold NllbModel.english_fallback. maintains_auto. Qed.

Lemma rest_detect_language_maintains text :
  maintains I (NllbModel.detect_language caps text).
Proof.
  pose proof rest_english_fallback_maintains.
  unfold NllbModel.detect_language. maintains_auto.
Qed.

Lemma rest_set_src_lang_maintains code :
  maintains I (NllbModel.set_src_lang code).
Proof. unfold NllbModel.set_src_lang. maintains_auto. Qed.

Lemma rest_translate_maintains text tl sl :
  maintains I (NllbModel.translate caps text tl sl).
Proof.
  pose proof rest_detect_language_maintains.
  pose proof rest_set_src_lang_maintains.
  unfold NllbModel.translate. maintains_auto.
Qed.

Lemma rest_get_translator_maintains :
  maintains I (NllbModel.get_translator caps).
Proof.
  pose proof rest_init_maintains.
  unfold NllbModel.get_translator. maintains_auto.
Qed.

Lemma endpoint_translate_maintains request :
  maintains I (Endpoints.translate caps request).
Proof.
  pose proof rest_get_translator_maintains.
  pose proof rest_detect_language_maintains.
  pose proof rest_translate_maintains.
  unfold Endpoints.translate, Endpoints.translate_except. maintains_auto.
Qed.
End RestMaintains.

(** The two properties of the batch globals that matter: the table, and
    the model being loaded. *)
Lemma handler_table_set_tokenizer T t :
  maintains (fun g => Handler.LANGUAGE_CODE_MAP g = T)
    (Handler.set_tokenizer t).
Proof. intros g tr H. exact H. Qed.

Lemma handler_table_set_model T m :
  maintains (fun g => Handler.LANGUAGE_CODE_MAP g = T) (Handler.set_model m).
Proof. intros g tr H. exact H. Qed.

Lemma handler_loaded_set_tokenizer t :
  maintains (fun g => Handler.is_loaded g = true)
    (Handler.set_tokenizer (Some t)).
Proof.
  intros g tr H. unfold Handler.is_loaded, final_state in *. simpl in *.
  destruct (Handler.model g); [reflexivity | discriminate].
Qed.

Lemma handler_loaded_set_model m :
  maintains (fun g => Handler.is_loaded g = true)
    (Handler.set_model (Some m)).
Proof.
  intros g tr H. unfold Handler.is_loaded, final_state in *. simpl in *.
  destruct (Handler.tokenizer g); [reflexivity|].
  rewrite orb_true_r in H. discriminate.
Qed.

Lemma rest_table_set_translator T t :
  maintains (fun g => NllbModel.LANGUAGE_CODE_MAP g = T)
    (NllbModel.set_translator t).
Proof. intros g tr H. exact H. Qed.

(** A handler call keeps the service ready. *)
Lemma handler_keeps_ready caps event g tr :
  Handler.ready g -> Handler.ready (final_state (Handler.handler caps event g tr)).
Proof.
  intros [HT HL]. split.
  - apply (handler_maintains
             (fun g => Handler.LANGUAGE_CODE_MAP g = Handler.LANGUAGE_CODE_MAP_value));
      auto using handler_table_set_tokenizer, handler_table_set_model.
  - apply (handler_maintains (fun g => Handler.is_loaded g = true));
      auto using handler_loaded_set_tokenizer, handler_loaded_set_model.
Qed.

(** A module body that ran to its end leaves the service ready. *)
Lemma startup_ready caps g tr :
  Handler.startup caps Handler.module_globals [] = (Ok tt, g, tr) ->
  Handler.ready g.
Proof.
  unfold Handler.startup, Handler.load_model, Handler.set_tokenizer,
    Handler.set_model. run.
  destruct (load_tokenizer caps []) as [tok|e]; [|discriminate].
  destruct (load_seq2seq caps _) as [m|e]; [|discriminate].
  intros H. injection H as <- _. split; reflexivity.
Qed.

(** Every state the running service reaches is ready. *)
Lemma reachable_ready caps g tr : Handler.reachable caps g tr -> Handler.ready g.
Proof.
  induction 1 as [g tr H | g tr event r g' tr' _ IH H].
  - eapply startup_ready; eassumption.
  - pose proof (handler_keeps_ready caps event g tr IH) as K.
    rewrite H in K. exact K.
Qed.

(* ================================================================== *)
(** * The claims *)

(** C8.  The language table is a bijection and is never mutated.  In
    both files the dict display repeats no short code, so the dict is
    exactly its forty items, and no locale tag occurs twice; a tag
    therefore determines its short code.  Every operation of the two
    surfaces leaves the table of its module as it found it, whatever it
    returns or raises, and in every state the running batch service
    reaches the table is still the one of the display. *)
Theorem C8_language_table_bijective_and_never_mutated :
  (NoDup (List.map fst Handler.LANGUAGE_CODE_MAP_items) /\
   NoDup (List.map snd Handler.LANGUAGE_CODE_MAP_items) /\
   NoDup (List.map fst NllbModel.LANGUAGE_CODE_MAP_items) /\
   NoDup (List.map snd NllbModel.LANGUAGE_CODE_MAP_items)) /\
  (Handler.LANGUAGE_CODE_MAP_value = Handler.LANGUAGE_CODE_MAP_items /\
   NllbModel.LANGUAGE_CODE_MAP_value = NllbModel.LANGUAGE_CODE_MAP_items) /\
  (forall k1 k2 tag,
      dict_lookup Handler.LANGUAGE_CODE_MAP_value k1 = Some tag ->
      dict_lookup Handler.LANGUAGE_CODE_MAP_value k2 = Some tag -> k1 = k2) /\
  (forall k1 k2 tag,
      dict_lookup NllbModel.LANGUAGE_CODE_MAP_value k1 = Some tag ->
      dict_lookup NllbModel.LANGUAGE_CODE_MAP_value k2 = Some tag ->
      k1 = k2) /\
  (forall caps T,
      let I := fun g => Handler.LANGUAGE_CODE_MAP g = T in
      maintains I (Handler.load_model caps) /\
      (forall text, maintains I (Handler.detect_language caps text)) /\
      (forall text tl sl, maintains I (Handler.translate caps text tl sl)) /\
      (forall event, maintains I (Handler.handler caps event)) /\
      maintains I (Handler.startup caps)) /\
  (forall caps T,
      let I := fun g => NllbModel.LANGUAGE_CODE_MAP g = T in
      maintains I (NllbModel.init caps) /\
      maintains I (NllbModel.get_translator caps) /\
      (forall text, maintains I (NllbModel.detect_language caps text)) /\
      (forall text tl sl, maintains I (NllbModel.translate caps text tl sl)) /\
      (forall request, maintains I (Endpoints.translate caps request))) /\
  (forall caps g tr,
      Handler.reachable caps g tr ->
      Handler.LANGUAGE_CODE_MAP g = Handler.LANGUAGE_CODE_MAP_value).
Proof.
  assert (K1 : NoDup (List.map fst NllbModel.LANGUAGE_CODE_MAP_items))
    by (apply str_nodupb_NoDup; vm_compute; reflexivity).
  assert (K2 : NoDup (List.map snd NllbModel.LANGUAGE_CODE_MAP_items))
    by (apply str_nodupb_NoDup; vm_compute; reflexivity).
  repeat split;
    auto using table_keys_unique, table_tags_unique,
      handler_display_keeps_items, rest_display_keeps_items.
  - intros k1 k2 tag. apply dict_lookup_injective.
    rewrite handler_display_keeps_items. apply table_tags_unique.
  - intros k1 k2 tag. apply dict_lookup_injective.
    rewrite rest_display_keeps_items. exact K2.
  - apply handler_load_model_maintains;
      auto using handler_table_set_tokenizer, handler_table_set_model.
  - intros text. apply handler_detect_language_maintains;
      auto using handler_table_set_tokenizer, handler_table_set_model.
  - intros text tl sl. apply handler_translate_maintains;
      auto using handler_table_set_tokenizer, handler_table_set_model.
  - intros event. apply handler_maintains;
      auto using handler_table_set_tokenizer, handler_table_set_model.
  - apply handler_startup_maintains;
      auto using handler_table_set_tokenizer, handler_table_set_model.
  - apply rest_init_maintains; auto using rest_table_set_translator.
  - apply rest_get_translator_maintains; auto using rest_table_set_translator.
  - intros text. apply rest_detect_language_maintains;
      auto using rest_table_set_translator.
  - intros text tl sl. apply rest_translate_maintains;
      auto using rest_table_set_translator.
  - intros request. apply endpoint_translate_maintains;
      auto using rest_table_set_translator.
  - intros caps g tr R. apply (reachable_ready caps g tr R).
Qed.

(** A state of the batch service after the module body and one call of
    the handler: its table is the one of the display. *)
Lemma C8_witness :
  Handler.LANGUAGE_CODE_MAP
    (final_state
       (Handler.handler sample_capabilities
          (PDict [ (lit "input",
                     PDict [ (lit "text", PStr (lit "Hello"));
                             (lit "target_language", PStr (lit "fr")) ]) ])
          loaded_globals [LoadTokenizer; LoadModel]))
  = Handler.LANGUAGE_CODE_MAP_value.
Proof.
  set (event := PDict [ (lit "input",
                          PDict [ (lit "text", PStr (lit "Hello"));
                                  (lit "target_language",
                                    PStr (lit "fr")) ]) ]).
  set (x := Handler.handler sample_capabilities event loaded_globals
              [LoadTokenizer; LoadModel]).
  apply (proj2 (proj2 (proj2 (proj2 (proj2 (proj2
           C8_language_table_bijective_and_never_mutated)))))
           sample_capabilities (final_state x) (final_trace x)).
  apply (Handler.reach_handler sample_capabilities loaded_globals
           [LoadTokenizer; LoadModel] event (outcome x)).
  - apply Handler.reach_startup. vm_compute. reflexivity.
  - vm_compute. reflexivity.
Defined.

(* ------------------------------------------------------------------ *)
(** ** Calls recorded in a trace *)

Lemma generate_calls_app tr1 tr2 :
  generate_calls (tr1 ++ tr2) = generate_calls tr1 ++ generate_calls tr2.
Proof. apply filter_app. Qed.

Lemma detect_calls_app tr1 tr2 :
  detect_calls (tr1 ++ tr2) = detect_calls tr1 ++ detect_calls tr2.
Proof. apply filter_app. Qed.

(** The calls the batch source resolution makes are calls to the
    detector. *)
Lemma batch_source_no_generate caps T en tr text sl :
  generate_calls (snd (batch_source caps T en tr text sl)) = [].
Proof. unfold batch_source. destruct (find_key T sl); reflexivity. Qed.

(** Both surfaces resolve a source language, absent or a string, to the
    same tag. *)
Lemma batch_source_rest_source caps T en tr text sl :
  fst (fst (batch_source caps T en tr text (source_value sl)))
  = rest_source caps T en tr text sl.
Proof.
  unfold batch_source, rest_source.
  destruct sl as [s|]; cbn [source_value find_key]; [|reflexivity].
  destruct (dict_lookup T s); reflexivity.
Qed.

Lemma source_value_hashable sl : hashable (source_value sl) = true.
Proof. destruct sl; reflexivity. Qed.

Lemma blank_or_not (text : pystr) :
  forallb isspace text = true \/ str_truthy (strip text) = true.
Proof.
  destruct (strip text) eqn:E.
  - left. apply strip_nil_iff. exact E.
  - right. reflexivity.
Qed.

(** C10.  The table of the batch surface and the table of the translator
    class are the same: the two displays have the same items in the same
    order, the dicts are equal, and a lookup gives the same answer in
    both.  Hence language resolution agrees: the detected language
    resolves to the same tag, and for the same text, target and source
    the two [translate] functions hand the generation capability the
    same source tag and the same target tag. *)
Theorem C10_language_tables_agree_between_surfaces :
  Handler.LANGUAGE_CODE_MAP_items = NllbModel.LANGUAGE_CODE_MAP_items /\
  Handler.LANGUAGE_CODE_MAP_value = NllbModel.LANGUAGE_CODE_MAP_value /\
  (forall k,
      dict_lookup Handler.LANGUAGE_CODE_MAP_value k
      = dict_lookup NllbModel.LANGUAGE_CODE_MAP_value k) /\
  (forall caps text gh gr tr,
      Handler.ready gh -> NllbModel.ready gr ->
      exists d,
        outcome (Handler.detect_language caps text gh tr) = Ok d /\
        outcome (NllbModel.detect_language caps text gr tr) = Ok (fst d)) /\
  (forall caps text target_language source_language gh gr tr,
      Handler.ready gh -> NllbModel.ready gr ->
      generate_calls
        (final_trace
           (Handler.translate caps (PStr text) (PStr target_language)
              (source_value source_language) gh tr))
      = generate_calls
          (final_trace
             (NllbModel.translate caps text target_language source_language
                gr tr))).
Proof.
  split; [reflexivity|]. split; [exact tables_equal|].
  split; [intros k; rewrite tables_equal; reflexivity|]. split.
  - intros caps text gh gr tr [HT _] [RT _].
    exists (resolve_detected Handler.LANGUAGE_CODE_MAP_value (lit "eng_Latn")
              (detect caps tr text)).
    rewrite (handler_detect_language_run caps _ _ handler_lookup_en _ _ _ HT).
    rewrite tables_equal in *.
    rewrite (rest_detect_language_run caps _ _ rest_lookup_en _ _ _ RT).
    split; reflexivity.
  - intros caps text tl sl gh gr tr [HT HL] [RT RL].
    destruct (blank_or_not text) as [Hb|Hs].
    + rewrite handler_translate_blank, rest_translate_blank by assumption.
      reflexivity.
    + rewrite (handler_translate_run caps _ _ handler_lookup_en
                 gh tr text (PStr tl) (source_value sl) HT HL Hs eq_refl
                 (source_value_hashable sl)).
      rewrite tables_equal in *.
      rewrite (rest_translate_run caps _ _ rest_lookup_en
                 gr tr text tl sl RT RL Hs).
      cbv zeta. unfold final_trace. cbn [snd].
      rewrite !generate_calls_app, batch_source_no_generate, app_nil_r.
      rewrite batch_source_rest_source.
      change (generate_calls [Detect text]) with (@nil event).
      rewrite app_nil_r. reflexivity.
Qed.

(** On ["Hello"] to French with no source given, both surfaces ask for
    a translation from [eng_Latn] to [fra_Latn]. *)
Lemma C10_witness :
  generate_calls
    (final_trace
       (Handler.translate sample_capabilities (PStr (lit "Hello"))
          (PStr (lit "fr")) (source_value None) loaded_globals []))
  = generate_calls
      (final_trace
         (NllbModel.translate sample_capabilities (lit "Hello") (lit "fr")
            None serving_globals [])).
Proof.
  apply (proj2 (proj2 (proj2 (proj2
           C10_language_tables_agree_between_surfaces)))).
  - split; reflexivity.
  - split; reflexivity.
Defined.

(** No short code of the table comes back from its tag by taking the
    text before the first ['_']: that text has three letters. *)
Lemma no_short_code_round_trips k tag :
  dict_lookup NllbModel.LANGUAGE_CODE_MAP_value k = Some tag ->
  Endpoints.extract_iso_code tag <> k.
Proof.
  intros L. apply str_eqb_neq.
  pose proof (forallb_lookup
                (fun kv => negb (str_eqb (Endpoints.extract_iso_code (snd kv))
                                   (fst kv)))
                NllbModel.LANGUAGE_CODE_MAP_value k tag) as H.
  apply negb_true_iff. apply H; [|exact L].
  vm_compute. reflexivity.
Qed.

(** C2, as the code has it.  Looking up ["en"] gives ["eng_Latn"], and
    the reverse step of [endpoints.py:32] gives ["eng"], not ["en"]; the
    REST surface, asked to translate ["Hello"] with no source language
    and a detector that answers ["en"], reports the source language
    ["eng"]. *)
Theorem C2_reverse_of_lookup_is_not_the_short_code :
  dict_lookup NllbModel.LANGUAGE_CODE_MAP_value (lit "en")
  = Some (lit "eng_Latn") /\
  Endpoints.extract_iso_code (lit "eng_Latn") = lit "eng" /\
  lit "eng" <> lit "en" /\
  outcome
    (Endpoints.translate sample_capabilities
       {| TranslationRequest.text := lit "Hello";
          TranslationRequest.target_language := lit "fr";
          TranslationRequest.source_language := None |}
       serving_globals [])
  = Ok (Endpoints.Response 200
          {| TranslationResponse.translated_text := lit "Bonjour";
             TranslationResponse.source_language := lit "eng";
             TranslationResponse.target_language := lit "fr" |}).
Proof.
  split; [vm_compute; reflexivity|].
  split; [vm_compute; reflexivity|].
  split; [vm_compute; discriminate|].
  vm_compute. reflexivity.
Qed.

(* ------------------------------------------------------------------ *)
(** ** Blank text *)

(** On a blank text the batch [translate] never reaches the generation
    capability, loaded or not: at most it loads the model first. *)
Lemma handler_translate_blank_no_generate caps g tr text tl sl :
  forallb isspace text = true ->
  generate_calls (final_trace (Handler.translate caps (PStr text) tl sl g tr))
  = generate_calls tr.
Proof.
  intros Hb.
  destruct (Handler.is_loaded g) eqn:HL.
  - rewrite handler_translate_blank by assumption. reflexivity.
  - apply strip_nil_iff in Hb.
    unfold Handler.translate.
    erewrite bind_ok by reflexivity.
    unfold Handler.is_loaded in HL. apply negb_false_iff in HL. rewrite HL.
    unfold Handler.load_model, Handler.set_tokenizer, Handler.set_model.
    run. cbn [py_strip]. rewrite Hb. cbn [str_truthy negb].
    destruct (load_tokenizer caps tr) as [tok|e]; cbn beta iota.
    + destruct (load_seq2seq caps (tr ++ [LoadTokenizer])) as [m|e];
        cbn beta iota; unfold final_trace; cbn [snd];
        rewrite !generate_calls_app, !app_nil_r; reflexivity.
    + unfold final_trace; cbn [snd].
      rewrite generate_calls_app, app_nil_r. reflexivity.
Qed.

(** C4.  A call to [translate] on a text that is empty or made of
    whitespace only returns the empty translation and invokes no
    capability.  The batch function, with the model loaded, returns the
    object with an empty [translated_text] and the source language
    [source_language or "en"] (the provided value when there is one, a
    non-empty string in particular, and ["en"] when there is none) and
    leaves the globals and the trace as they were; even when it has to
    load the model first it makes no call to the generation capability.
    The method of the translator class returns the empty string, again
    with the state and the trace untouched. *)
Theorem C4_blank_text_gives_empty_translation caps text :
  forallb isspace text = true ->
  (forall g tr target_language source_language,
      Handler.is_loaded g = true ->
      Handler.translate caps (PStr text) target_language source_language g tr
      = (Ok (PDict
               [ (lit "translated_text", PStr (lit ""));
                 (lit "source_language",
                   py_or source_language (PStr (lit "en"))) ]),
         g, tr)) /\
  py_or PNone (PStr (lit "en")) = PStr (lit "en") /\
  (forall s, s <> [] -> py_or (PStr s) (PStr (lit "en")) = PStr s) /\
  (forall g tr target_language source_language,
      generate_calls
        (final_trace
           (Handler.translate caps (PStr text) target_language
              source_language g tr))
      = generate_calls tr) /\
  (forall g tr target_language source_language,
      NllbModel.translate caps text target_language source_language g tr
      = (Ok (lit ""), g, tr)).
Proof.
  intros Hb. repeat split.
  - intros. apply handler_translate_blank; assumption.
  - intros s Hs. unfold py_or. cbn [truthy].
    destruct s; [congruence | reflexivity].
  - intros. apply handler_translate_blank_no_generate; assumption.
  - intros. apply rest_translate_blank; assumption.
Qed.

(** Three spaces, to French, with the source ["de"] given. *)
Lemma C4_witness :
  Handler.translate sample_capabilities (PStr (lit "   ")) (PStr (lit "fr"))
    (PStr (lit "de")) loaded_globals []
  = (Ok (PDict [ (lit "translated_text", PStr (lit ""));
                 (lit "source_language",
                   py_or (PStr (lit "de")) (PStr (lit "en"))) ]),
     loaded_globals, []).
Proof.
  apply (proj1 (C4_blank_text_gives_empty_translation sample_capabilities
                  (lit "   ") eq_refl)).
  reflexivity.
Defined.

(* ------------------------------------------------------------------ *)
(** ** An explicit source language of the table *)

(** The batch [translate] does not call the detector when the source
    language is a code of the table. *)
Lemma handler_explicit_source_no_detect caps g tr text tl s c :
  Handler.ready g ->
  dict_lookup Handler.LANGUAGE_CODE_MAP_value s = Some c ->
  detect_calls
    (final_trace (Handler.translate caps (PStr text) (PStr tl) (PStr s) g tr))
  = detect_calls tr.
Proof.
  intros [HT HL] L. destruct (blank_or_not text) as [Hb|Hs].
  - rewrite handler_translate_blank by assumption. reflexivity.
  - rewrite (handler_translate_run caps _ _ handler_lookup_en
               g tr text (PStr tl) (PStr s) HT HL Hs eq_refl eq_refl).
    cbv zeta. unfold batch_source. cbn [find_key]. rewrite L.
    unfold final_trace. cbn [fst snd].
    rewrite !detect_calls_app. cbn. rewrite !app_nil_r. reflexivity.
Qed.

(** Nor does its result depend on the detector: two sets of capabilities
    with the same generation capability give the same run. *)
Lemma handler_explicit_source_same_result caps1 caps2 g tr text tl s c :
  Handler.ready g ->
  dict_lookup Handler.LANGUAGE_CODE_MAP_value s = Some c ->
  generate caps1 = generate caps2 ->
  Handler.translate caps1 (PStr text) (PStr tl) (PStr s) g tr
  = Handler.translate caps2 (PStr text) (PStr tl) (PStr s) g tr.
Proof.
  intros [HT HL] L G. destruct (blank_or_not text) as [Hb|Hs].
  - rewrite !handler_translate_blank by assumption. reflexivity.
  - rewrite !(handler_translate_run _ _ _ handler_lookup_en
                g tr text (PStr tl) (PStr s) HT HL Hs eq_refl eq_refl).
    cbv zeta. unfold batch_source. cbn [find_key]. rewrite L, G.
    reflexivity.
Qed.

(** The method of the translator class calls the detector on every text
    that is not blank, also when the source language is a code of the
    table. *)
Lemma rest_explicit_source_detects caps g tr text tl sl :
  NllbModel.ready g ->
  str_truthy (strip text) = true ->
  detect_calls (final_trace (NllbModel.translate caps text tl sl g tr))
  = detect_calls tr ++ [Detect text].
Proof.
  intros [RT RL] Hs.
  rewrite (rest_translate_run caps _ _ rest_lookup_en g tr text tl sl RT RL Hs).
  cbv zeta. unfold final_trace. cbn [snd].
  rewrite !detect_calls_app. cbn. rewrite app_nil_r. reflexivity.
Qed.

(** What the method returns for a source language of the table does not
    depend on the detector: two sets of capabilities that differ in the
    detector only give the same result, state and trace. *)
Lemma rest_explicit_source_same_result caps1 caps2 g tr text tl s c :
  NllbModel.ready g ->
  dict_lookup NllbModel.LANGUAGE_CODE_MAP_value s = Some c ->
  generate caps1 = generate caps2 ->
  NllbModel.translate caps1 text tl (Some s) g tr
  = NllbModel.translate caps2 text tl (Some s) g tr.
Proof.
  intros [RT RL] L G. destruct (blank_or_not text) as [Hb|Hs].
  - rewrite !rest_translate_blank by assumption. reflexivity.
  - rewrite !(rest_translate_run _ _ _ rest_lookup_en g tr text tl (Some s)
               RT RL Hs).
    cbv zeta. unfold rest_source. rewrite L, G. reflexivity.
Qed.

(** C1, as the code has it.  ["en"] is a code of the table; the method
    [NLLBTranslator.translate], called on ["Hello"] to French with the
    source ["en"], calls the detector before it calls the generation
    capability, while the batch [translate] on the same arguments does
    not. *)
Theorem C1_method_translate_calls_detector_for_explicit_source :
  dict_lookup NllbModel.LANGUAGE_CODE_MAP_value (lit "en")
  = Some (lit "eng_Latn") /\
  final_trace
    (NllbModel.translate sample_capabilities (lit "Hello") (lit "fr")
       (Some (lit "en")) serving_globals [])
  = [ Detect (lit "Hello");
      Generate (lit "eng_Latn") (lit "fra_Latn") (lit "Hello") ] /\
  final_trace
    (Handler.translate sample_capabilities (PStr (lit "Hello"))
       (PStr (lit "fr")) (PStr (lit "en")) loaded_globals [])
  = [ Generate (lit "eng_Latn") (lit "fra_Latn") (lit "Hello") ].
Proof. repeat split; vm_compute; reflexivity. Qed.

(* ------------------------------------------------------------------ *)
(** ** A failing generation step on the REST surface *)

(** The method [translate] never raises: its [except] clause turns every
    exception into a returned string. *)
Lemma rest_translate_never_raises caps text tl sl g tr :
  exists y, outcome (NllbModel.translate caps text tl sl g tr) = Ok y.
Proof.
  unfold NllbModel.translate, try_except.
  match goal with
  | |- context [match ?m g tr with _ => _ end] =>
      destruct (m g tr) as [[[y|e] g'] tr']
  end; eexists; reflexivity.
Qed.

(** With the singleton in place, a request whose generation step raises
    [e] is answered with status 200 and the message of [e] as the
    translated text. *)
Lemma endpoint_generation_failure caps g tr text tl s e :
  NllbModel.ready g ->
  str_truthy (strip text) = true ->
  generate caps (tr ++ [Detect text])
    (rest_source caps NllbModel.LANGUAGE_CODE_MAP_value (lit "eng_Latn")
       tr text (Some s))
    (resolve_target NllbModel.LANGUAGE_CODE_MAP_value (lit "eng_Latn")
       (PStr tl))
    text
  = Raise e ->
  outcome
    (Endpoints.translate caps
       {| TranslationRequest.text := text;
          TranslationRequest.target_language := tl;
          TranslationRequest.source_language := Some s |} g tr)
  = Ok (Endpoints.Response 200
          {| TranslationResponse.translated_text :=
               lit "Translation error: " ++ str_exn e;
             TranslationResponse.source_language := s;
             TranslationResponse.target_language := tl |}).
Proof.
  intros [RT RL] Hs G.
  destruct (NllbModel.translator g) as [t0|] eqn:Et; [|discriminate].
  unfold Endpoints.translate.
  cbn [TranslationRequest.source_language TranslationRequest.text
         TranslationRequest.target_language].
  erewrite try_except_ok; [reflexivity|].
  erewrite bind_ok
    by (unfold NllbModel.get_translator; run; rewrite Et; reflexivity).
  erewrite bind_ok by reflexivity.
  erewrite bind_ok
    by (apply (rest_translate_run caps _ _ rest_lookup_en); 
        [exact RT | rewrite Et; reflexivity | exact Hs]).
  cbv zeta. rewrite G. reflexivity.
Qed.

(** C3, as the code has it.  A request to translate ["Hello"] from
    English to French whose generation step raises "CUDA out of memory"
    is answered with status 200, the error message in the place of the
    translated text. *)
Theorem C3_generation_failure_is_answered_with_status_200 :
  outcome
    (Endpoints.translate failing_generation
       {| TranslationRequest.text := lit "Hello";
          TranslationRequest.target_language := lit "fr";
          TranslationRequest.source_language := Some (lit "en") |}
       serving_globals [])
  = Ok (Endpoints.Response 200
          {| TranslationResponse.translated_text :=
               lit "Translation error: CUDA out of memory";
             TranslationResponse.source_language := lit "en";
             TranslationResponse.target_language := lit "fr" |}).
Proof. vm_compute. reflexivity. Qed.

(* ------------------------------------------------------------------ *)
(** ** Unsupported language codes *)

Lemma resolve_target_absent T en t :
  dict_lookup T t = None -> resolve_target T en (PStr t) = en.
Proof. unfold resolve_target. cbn [find_key]. intros ->. reflexivity. Qed.

Lemma resolve_target_en :
  resolve_target Handler.LANGUAGE_CODE_MAP_value (lit "eng_Latn")
    (PStr (lit "en")) = lit "eng_Latn".
Proof. vm_compute. reflexivity. Qed.

(** C5.  A call to [translate] whose target code [t] is not in the
    table still succeeds, with English as the target, and resolving the
    target calls no detector.  On a text that is not blank the batch
    function makes exactly the calls of source resolution and then one
    call to the generation capability with the target tag ["eng_Latn"];
    it returns the translation together with the resolved source and the
    requested target [t] whenever generation returns one, and never
    raises.  The method of the translator class does the same and
    returns the translation.  In both, the calls made are those of the
    same request with the supported target ["en"]; on a blank text the
    result is the empty translation, as for any target. *)
Theorem C5_unsupported_target_is_replaced_by_english caps text t :
  dict_lookup Handler.LANGUAGE_CODE_MAP_value t = None ->
  (forall g tr source_language,
      Handler.ready g ->
      let run :=
        Handler.translate caps (PStr text) (PStr t)
          (source_value source_language) g tr in
      let src :=
        batch_source caps Handler.LANGUAGE_CODE_MAP_value (lit "eng_Latn")
          tr text (source_value source_language) in
      (str_truthy (strip text) = true ->
       final_trace run
       = (tr ++ snd src) ++ [Generate (fst (fst src)) (lit "eng_Latn") text]
       /\ forall translation,
           generate caps (tr ++ snd src) (fst (fst src)) (lit "eng_Latn") text
           = Ok translation ->
           outcome run
           = Ok (PDict [ (lit "translated_text", PStr translation);
                         (lit "source_language", snd (fst src));
                         (lit "target_language", PStr t) ])) /\
      (forallb isspace text = true ->
       run = (Ok (empty_translation
                    (py_or (source_value source_language) (PStr (lit "en")))),
              g, tr)) /\
      (exists v, outcome run = Ok v) /\
      final_trace run
      = final_trace
          (Handler.translate caps (PStr text) (PStr (lit "en"))
             (source_value source_language) g tr)) /\
  (forall g tr source_language,
      NllbModel.ready g ->
      let run := NllbModel.translate caps text t source_language g tr in
      let src :=
        rest_source caps NllbModel.LANGUAGE_CODE_MAP_value (lit "eng_Latn")
          tr text source_language in
      (str_truthy (strip text) = true ->
       final_trace run
       = (tr ++ [Detect text]) ++ [Generate src (lit "eng_Latn") text]
       /\ forall translation,
           generate caps (tr ++ [Detect text]) src (lit "eng_Latn") text
           = Ok translation ->
           outcome run = Ok translation) /\
      (forallb isspace text = true -> run = (Ok (lit ""), g, tr)) /\
      final_trace run
      = final_trace
          (NllbModel.translate caps text (lit "en") source_language g tr)).
Proof.
  intros L. split.
  - intros g tr sl [HT HL]. cbv zeta.
    assert (Hrun : str_truthy (strip text) = true ->
      forall tl, Handler.translate caps (PStr text) (PStr tl)
                   (source_value sl) g tr = _)
      by (intros Hs tl;
          exact (handler_translate_run caps _ _ handler_lookup_en
                   g tr text (PStr tl) (source_value sl) HT HL Hs eq_refl
                   (source_value_hashable sl))).
    cbv zeta in Hrun.
    repeat split.
    + rewrite (Hrun H t), resolve_target_absent by assumption. reflexivity.
    + intros y G. rewrite (Hrun H t), resolve_target_absent by assumption.
      unfold outcome. cbn [fst]. rewrite G. reflexivity.
    + intros Hb. apply handler_translate_blank; assumption.
    + destruct (blank_or_not text) as [Hb|Hs].
      * rewrite handler_translate_blank by assumption. eexists; reflexivity.
      * rewrite (Hrun Hs t). eexists; reflexivity.
    + destruct (blank_or_not text) as [Hb|Hs].
      * rewrite !handler_translate_blank by assumption. reflexivity.
      * rewrite (Hrun Hs t), (Hrun Hs (lit "en")).
        rewrite resolve_target_absent, resolve_target_en by assumption.
        reflexivity.
  - intros g tr sl [RT RL]. cbv zeta.
    rewrite tables_equal in L.
    assert (Hrun : str_truthy (strip text) = true ->
      forall tl, NllbModel.translate caps text tl sl g tr = _)
      by (intros Hs tl;
          exact (rest_translate_run caps _ _ rest_lookup_en
                   g tr text tl sl RT RL Hs)).
    cbv zeta in Hrun.
    repeat split.
    + rewrite (Hrun H t), resolve_target_absent by assumption. reflexivity.
    + intros y G. rewrite (Hrun H t), resolve_target_absent by assumption.
      unfold outcome. cbn [fst]. rewrite G. reflexivity.
    + intros Hb. apply rest_translate_blank; assumption.
    + destruct (blank_or_not text) as [Hb|Hs].
      * rewrite !rest_translate_blank by assumption. reflexivity.
      * rewrite (Hrun Hs t), (Hrun Hs (lit "en")).
        rewrite resolve_target_absent by assumption.
        rewrite <- tables_equal, resolve_target_en. reflexivity.
Qed.

(** ["Hello"] to the unsupported target ["xx"], source ["fr"] given: one
    call, to the generation capability, from French to English. *)
Lemma C5_witness :
  final_trace
    (Handler.translate sample_capabilities (PStr (lit "Hello"))
       (PStr (lit "xx")) (source_value (Some (lit "fr"))) loaded_globals [])
  = ([] ++ []) ++ [Generate (lit "fra_Latn") (lit "eng_Latn") (lit "Hello")].
Proof.
  apply (proj1 (proj1 (C5_unsupported_target_is_replaced_by_english
                         sample_capabilities (lit "Hello") (lit "xx") eq_refl)
                  loaded_globals [] (Some (lit "fr"))
                  (conj eq_refl eq_refl)) eq_refl).
Defined.

(** What detection resolves to, case by case. *)
Lemma resolve_detected_cases caps tr text :
  let d :=
    resolve_detected Handler.LANGUAGE_CODE_MAP_value (lit "eng_Latn")
      (detect caps tr text) in
  match detect caps tr text with
  | Ok c =>
      match dict_lookup Handler.LANGUAGE_CODE_MAP_value c with
      | Some tag => d = (tag, c)
      | None => d = (lit "eng_Latn", lit "en")
      end
  | Raise _ => d = (lit "eng_Latn", lit "en")
  end.
Proof.
  cbv zeta. unfold resolve_detected.
  destruct (detect caps tr text) as [c|e]; [|reflexivity].
  destruct (dict_lookup Handler.LANGUAGE_CODE_MAP_value c) as [tag|] eqn:L;
    [|reflexivity].
  rewrite (handler_tags_truthy c tag L). reflexivity.
Qed.

(** C6.  A call to [translate] with a source code [s] that is not in the
    table falls back to detection and never raises.  On a text that is
    not blank both functions call the detector once; the source tag they
    hand to the generation capability is the tag of the detected code
    when the detector returns a code of the table, and ["eng_Latn"] when
    it raises or returns any other code; the batch function reports the
    detected code, or ["en"], as the source language.  An error comes
    back only if the generation step itself raises.  On a blank text the
    result is the empty translation, without any call. *)
Theorem C6_unsupported_source_falls_back_to_detection caps text s :
  dict_lookup Handler.LANGUAGE_CODE_MAP_value s = None ->
  (forall tr,
      let d :=
        resolve_detected Handler.LANGUAGE_CODE_MAP_value (lit "eng_Latn")
          (detect caps tr text) in
      match detect caps tr text with
      | Ok c =>
          match dict_lookup Handler.LANGUAGE_CODE_MAP_value c with
          | Some tag => d = (tag, c)
          | None => d = (lit "eng_Latn", lit "en")
          end
      | Raise _ => d = (lit "eng_Latn", lit "en")
      end) /\
  (forall g tr target_language,
      Handler.ready g ->
      let run :=
        Handler.translate caps (PStr text) (PStr target_language) (PStr s)
          g tr in
      let d :=
        resolve_detected Handler.LANGUAGE_CODE_MAP_value (lit "eng_Latn")
          (detect caps tr text) in
      let tgt :=
        resolve_target Handler.LANGUAGE_CODE_MAP_value (lit "eng_Latn")
          (PStr target_language) in
      (str_truthy (strip text) = true ->
       final_trace run
       = (tr ++ [Detect text]) ++ [Generate (fst d) tgt text] /\
       outcome run
       = Ok (batch_result (PStr target_language) (PStr (snd d))
               (generate caps (tr ++ [Detect text]) (fst d) tgt text))) /\
      (forallb isspace text = true ->
       run = (Ok (empty_translation (py_or (PStr s) (PStr (lit "en")))),
              g, tr)) /\
      (exists v, outcome run = Ok v)) /\
  (forall g tr target_language,
      NllbModel.ready g ->
      let run :=
        NllbModel.translate caps text target_language (Some s) g tr in
      let d :=
        resolve_detected Handler.LANGUAGE_CODE_MAP_value (lit "eng_Latn")
          (detect caps tr text) in
      let tgt :=
        resolve_target Handler.LANGUAGE_CODE_MAP_value (lit "eng_Latn")
          (PStr target_language) in
      (str_truthy (strip text) = true ->
       final_trace run
       = (tr ++ [Detect text]) ++ [Generate (fst d) tgt text] /\
       outcome run
       = Ok (rest_result
               (generate caps (tr ++ [Detect text]) (fst d) tgt text))) /\
      (forallb isspace text = true -> run = (Ok (lit ""), g, tr)) /\
      (exists v, outcome run = Ok v)).
Proof.
  intros L. split; [intros tr; apply resolve_detected_cases|]. split.
  - intros g tr tl [HT HL]. cbv zeta.
    assert (Hrun : str_truthy (strip text) = true ->
      Handler.translate caps (PStr text) (PStr tl) (PStr s) g tr = _)
      by (intros Hs;
          exact (handler_translate_run caps _ _ handler_lookup_en
                   g tr text (PStr tl) (PStr s) HT HL Hs eq_refl eq_refl)).
    cbv zeta in Hrun. unfold batch_source in Hrun.
    cbn [find_key] in Hrun. rewrite L in Hrun. cbn [fst snd] in Hrun.
    repeat split.
    + rewrite (Hrun H). reflexivity.
    + rewrite (Hrun H). reflexivity.
    + intros Hb. apply handler_translate_blank; assumption.
    + destruct (blank_or_not text) as [Hb|Hs].
      * rewrite handler_translate_blank by assumption. eexists; reflexivity.
      * rewrite (Hrun Hs). eexists; reflexivity.
  - intros g tr tl [RT RL]. cbv zeta.
    assert (Hrun : str_truthy (strip text) = true ->
      NllbModel.translate caps text tl (Some s) g tr = _)
      by (intros Hs;
          exact (rest_translate_run caps _ _ rest_lookup_en
                   g tr text tl (Some s) RT RL Hs)).
    cbv zeta in Hrun. unfold rest_source in Hrun.
    rewrite <- tables_equal in Hrun. rewrite L in Hrun.
    repeat split.
    + rewrite (Hrun H). reflexivity.
    + rewrite (Hrun H). reflexivity.
    + intros Hb. apply rest_translate_blank; assumption.
    + apply rest_translate_never_raises.
Qed.

(** ["Hello"] to French with the unsupported source ["xx"]: the detector
    is called, answers ["en"], and the translation runs from English. *)
Lemma C6_witness :
  final_trace
    (Handler.translate sample_capabilities (PStr (lit "Hello"))
       (PStr (lit "fr")) (PStr (lit "xx")) loaded_globals [])
  = ([] ++ [Detect (lit "Hello")])
      ++ [Generate
            (fst (resolve_detected Handler.LANGUAGE_CODE_MAP_value
                    (lit "eng_Latn")
                    (detect sample_capabilities [] (lit "Hello"))))
            (resolve_target Handler.LANGUAGE_CODE_MAP_value (lit "eng_Latn")
               (PStr (lit "fr")))
            (lit "Hello")].
Proof.
  apply (proj1 (proj1 (proj1 (proj2
           (C6_unsupported_source_falls_back_to_detection
              sample_capabilities (lit "Hello") (lit "xx") eq_refl))
           loaded_globals [] (lit "fr") (conj eq_refl eq_refl)) eq_refl)).
Defined.

(* ------------------------------------------------------------------ *)
(** ** Validation in the batch handler *)

Section Cases.
Context {S A B : Type} (P : res B * S * list event -> Prop).

Lemma bind_cases (m : M S A) (k : A -> M S B) s tr :
  (forall e s' tr', P (Raise e, s', tr')) ->
  (forall a s' tr', m s tr = (Ok a, s', tr') -> P (k a s' tr')) ->
  P (bind m k s tr).
Proof.
  intros Hr Hk. unfold bind. destruct (m s tr) as [[[a|e] s'] tr']; auto.
Qed.

Lemma bind_try_cases (m : M S A) (h : exn -> M S B) (k : A -> M S B) s tr :
  (forall e s' tr', P (h e s' tr')) ->
  (forall a s' tr', m s tr = (Ok a, s', tr') -> P (k a s' tr')) ->
  P (bind_try m h k s tr).
Proof.
  intros Hh Hk. unfold bind_try. destruct (m s tr) as [[[a|e] s'] tr']; auto.
Qed.
End Cases.

(** The handler on an event whose input is an object: the three fields
    are read, then validated. *)
Lemma handler_on_object caps event input g tr :
  event_input event = PDict input ->
  Handler.handler caps (PDict event) g tr =
  try_except
    (if negb (truthy (field input (lit "text")))
     then ret (PDict
                 [ (lit "error", PStr (lit "Missing required field: text")) ])
     else if negb (truthy (field input (lit "target_language")))
     then ret (PDict
                 [ (lit "error",
                     PStr (lit "Missing required field: target_language")) ])
     else Handler.translate caps (field input (lit "text"))
            (field input (lit "target_language"))
            (field input (lit "source_language")))
    (fun e =>
       ret (PDict
              [ (lit "error",
                  PStr (lit "Error processing request: " ++ str_exn e)) ]))
    g tr.
Proof.
  intros Ei. unfold Handler.handler, try_except.
  unfold bind at 1. unfold lift at 1. cbn [py_get_default].
  change (match dict_lookup event (lit "input") with
          | Some x => x | None => PDict [] end) with (event_input event).
  rewrite Ei. unfold bind, lift. cbn [py_get]. reflexivity.
Qed.

(** The batch [translate] returns an object of two keys only from its
    early return, that is, on a string that is blank. *)
Lemma handler_translate_two_keys caps text tl sl g tr :
  two_keys (Handler.translate caps text tl sl g tr) ->
  exists s, text = PStr s /\ strip s = [].
Proof.
  unfold Handler.translate.
  apply bind_cases; [intros e s' tr' [a [b H]]; discriminate H|].
  intros g0 g1 tr1 _.
  apply bind_cases; [intros e s' tr' [a [b H]]; discriminate H|].
  intros _ g2 tr2 _.
  assert (H3 : forall e sl' s' tr',
    ~ two_keys (Handler.translate_except sl' tl e s' tr')).
  { intros e sl' s' tr' [a [b H]]. discriminate H. }
  apply bind_try_cases; [intros e s' tr' K; destruct (H3 _ _ _ _ K)|].
  intros stripped s' tr' E.
  destruct text; try discriminate E.
  unfold lift in E. cbn [py_strip] in E. injection E as <- _ _.
  destruct (strip s) eqn:Es; [eauto|].
  cbn [str_truthy negb].
  repeat (apply bind_try_cases;
          [intros e1 s1 tr1' K; destruct (H3 _ _ _ _ K)|intros ? ? ? _]).
  intros [k1 [k2 H]]. discriminate H.
Qed.

(** The handler returns an object of two keys only for an event whose
    input is an object with a [text] that is a non-empty string of
    whitespace. *)
Lemma handler_two_keys caps event g tr :
  two_keys (Handler.handler caps event g tr) ->
  exists ev input text,
    event = PDict ev /\ event_input ev = PDict input /\
    field input (lit "text") = PStr text /\
    text <> [] /\ forallb isspace text = true.
Proof.
  destruct event as [| | | | |ev];
    try (unfold Handler.handler, try_except, bind, lift;
         cbn [py_get_default]; intros [k1 [k2 H]]; discriminate H).
  destruct (event_input ev) as [| | | | |input] eqn:Ei.
  1-5: unfold Handler.handler, try_except; unfold bind at 1; unfold lift at 1;
       cbn [py_get_default];
       change (match dict_lookup ev (lit "input") with
               | Some x => x | None => PDict [] end) with (event_input ev);
       rewrite Ei; intros [k1 [k2 H]]; discriminate H.
  rewrite (handler_on_object caps ev input g tr Ei). unfold try_except.
  destruct (truthy (field input (lit "text"))) eqn:Tt; cbn [negb];
    [|intros [a [b H]]; discriminate H].
  destruct (truthy (field input (lit "target_language"))) eqn:Tl; cbn [negb];
    [|intros [a [b H]]; discriminate H].
  destruct (Handler.translate caps _ _ _ g tr) as [[[v|e] g'] tr'] eqn:E;
    [|intros [a [b H]]; discriminate H].
  intros K.
  assert (K' : two_keys
                 (Handler.translate caps (field input (lit "text"))
                    (field input (lit "target_language"))
                    (field input (lit "source_language")) g tr))
    by (rewrite E; exact K).
  apply handler_translate_two_keys in K'. destruct K' as [s [Hs Hstrip]].
  exists ev, input, s. repeat split; auto.
  - rewrite Hs in Tt. cbn [truthy] in Tt.
    destruct s; [discriminate | congruence].
  - apply strip_nil_iff. exact Hstrip.
Qed.

(** The claim C7 as it is written fails on an event whose [text] is the
    empty string and that has no [target_language]: the field [text] is
    present and [target_language] is lacking, yet the error names
    [text], not [target_language]. *)
Lemma C7_counterexample_empty_text_without_target :
  dict_lookup [ (lit "text", PStr (lit "")) ] (lit "text")
  = Some (PStr (lit "")) /\
  dict_lookup [ (lit "text", PStr (lit "")) ] (lit "target_language") = None /\
  outcome
    (Handler.handler sample_capabilities
       (PDict [ (lit "input", PDict [ (lit "text", PStr (lit "")) ]) ])
       loaded_globals [])
  = Ok (PDict [ (lit "error", PStr (lit "Missing required field: text")) ]) /\
  outcome
    (Handler.handler sample_capabilities
       (PDict [ (lit "input", PDict [ (lit "text", PStr (lit "")) ]) ])
       loaded_globals [])
  <> Ok (PDict [ (lit "error",
                   PStr (lit "Missing required field: target_language")) ]).
Proof.
  repeat split; try (vm_compute; reflexivity).
  vm_compute. discriminate.
Qed.

(** C7, amended.  For an event whose input is an object, or is absent:
    when [text] is missing or falsy (the empty string, [None], ...) the
    handler returns exactly the error that names [text]; when [text] is
    truthy (a non-empty string in particular) and [target_language] is
    missing or falsy, it returns exactly the error that names
    [target_language].  In both cases the globals and the trace are as
    before: nothing is loaded, detected or generated.  A missing field
    reads as [None], which is falsy. *)
Theorem C7_missing_required_fields_are_reported caps event input g tr :
  event_input event = PDict input ->
  (truthy (field input (lit "text")) = false ->
   Handler.handler caps (PDict event) g tr
   = (Ok (PDict [ (lit "error",
                    PStr (lit "Missing required field: text")) ]),
      g, tr)) /\
  (truthy (field input (lit "text")) = true ->
   truthy (field input (lit "target_language")) = false ->
   Handler.handler caps (PDict event) g tr
   = (Ok (PDict [ (lit "error",
                    PStr (lit "Missing required field: target_language")) ]),
      g, tr)) /\
  (forall k, dict_lookup input k = None -> truthy (field input k) = false) /\
  (forall s, field input (lit "text") = PStr s -> s <> [] ->
             truthy (field input (lit "text")) = true).
Proof.
  intros Ei. rewrite (handler_on_object caps event input g tr Ei).
  unfold try_except. repeat split.
  - intros ->. reflexivity.
  - intros -> ->. reflexivity.
  - intros k L. unfold field. rewrite L. reflexivity.
  - intros s -> Hs. destruct s; [congruence | reflexivity].
Qed.

(** An event with the text ["Hello"] and no target language. *)
Lemma C7_witness :
  Handler.handler sample_capabilities
    (PDict [ (lit "input", PDict [ (lit "text", PStr (lit "Hello")) ]) ])
    loaded_globals []
  = (Ok (PDict [ (lit "error",
                   PStr (lit "Missing required field: target_language")) ]),
     loaded_globals, []).
Proof.
  apply (proj1 (proj2 (C7_missing_required_fields_are_reported
                         sample_capabilities
                         [ (lit "input",
                             PDict [ (lit "text", PStr (lit "Hello")) ]) ]
                         [ (lit "text", PStr (lit "Hello")) ]
                         loaded_globals [] eq_refl)));
    reflexivity.
Defined.

(** C9.  An event whose [text] is the empty string is answered with the
    error that names [text], whatever the other fields are, without any
    call.  The early return of [translate] for a blank text, the object
    with an empty [translated_text] and a [source_language] only, comes
    back from the handler only when [text] is a non-empty string of
    whitespace; and it does come back for every such text, once the
    target language is truthy and the model is loaded. *)
Theorem C9_empty_string_text_is_reported_missing caps :
  (forall event input g tr,
      event_input event = PDict input ->
      dict_lookup input (lit "text") = Some (PStr []) ->
      Handler.handler caps (PDict event) g tr
      = (Ok (PDict [ (lit "error",
                       PStr (lit "Missing required field: text")) ]),
         g, tr)) /\
  (forall event g tr source_language,
      outcome (Handler.handler caps event g tr)
      = Ok (PDict [ (lit "translated_text", PStr (lit ""));
                    (lit "source_language", source_language) ]) ->
      exists ev input text,
        event = PDict ev /\ event_input ev = PDict input /\
        field input (lit "text") = PStr text /\
        text <> [] /\ forallb isspace text = true) /\
  (forall event input text g tr,
      event_input event = PDict input ->
      field input (lit "text") = PStr text ->
      text <> [] -> forallb isspace text = true ->
      truthy (field input (lit "target_language")) = true ->
      Handler.is_loaded g = true ->
      Handler.handler caps (PDict event) g tr
      = (Ok (PDict [ (lit "translated_text", PStr (lit ""));
                     (lit "source_language",
                       py_or (field input (lit "source_language"))
                         (PStr (lit "en"))) ]),
         g, tr)).
Proof.
  repeat split.
  - intros event input g tr Ei L.
    rewrite (handler_on_object caps event input g tr Ei).
    unfold field at 1. rewrite L. reflexivity.
  - intros event g tr sl H. apply (handler_two_keys caps event g tr).
    eexists. eexists. exact H.
  - intros event input text g tr Ei Ft Hne Hb Tl HL.
    rewrite (handler_on_object caps event input g tr Ei).
    rewrite Ft, Tl. cbn [truthy]. destruct text as [|c r]; [congruence|].
    cbn [str_truthy negb]. unfold try_except.
    rewrite handler_translate_blank by assumption. reflexivity.
Qed.

(** An event with a text of one space, to French. *)
Lemma C9_witness :
  Handler.handler sample_capabilities
    (PDict [ (lit "input",
               PDict [ (lit "text", PStr (lit " "));
                       (lit "target_language", PStr (lit "fr")) ]) ])
    loaded_globals []
  = (Ok (PDict [ (lit "translated_text", PStr (lit ""));
                 (lit "source_language",
                   py_or
                     (field [ (lit "text", PStr (lit " "));
                              (lit "target_language", PStr (lit "fr")) ]
                        (lit "source_language"))
                     (PStr (lit "en"))) ]),
     loaded_globals, []).
Proof.
  apply (proj2 (proj2 (C9_empty_string_text_is_reported_missing
                         sample_capabilities))
           [ (lit "input",
               PDict [ (lit "text", PStr (lit " "));
                       (lit "target_language", PStr (lit "fr")) ]) ]
           [ (lit "text", PStr (lit " "));
             (lit "target_language", PStr (lit "fr")) ]
           (lit " ") loaded_globals []);
    try reflexivity.
  vm_compute. discriminate.
Defined.

(* ================================================================== *)
(** * Further properties of the code *)

(* ------------------------------------------------------------------ *)
(** ** Exceptions a computation can raise *)

Section RaisesOnly.
Context {S : Type} (P : exn -> Prop).

Lemma raises_only_ret {A} (a : A) : raises_only P (@ret S A a).
Proof. intros s tr e s' tr' H. discriminate H. Qed.

Lemma raises_only_get_state : raises_only P (@get_state S).
Proof. intros s tr e s' tr' H. discriminate H. Qed.

Lemma raises_only_lift {A} (r : res A) :
  (forall e, r = Raise e -> P e) -> raises_only P (@lift S A r).
Proof. intros Hr s tr e s' tr' H. injection H as H _ _. auto. Qed.

Lemma raises_only_call {A} ev (oracle : list event -> res A) :
  (forall tr e, oracle tr = Raise e -> P e) ->
  raises_only P (@call S A ev oracle).
Proof. intros Hr s tr e s' tr' H. injection H as H _ _. eauto. Qed.

Lemma raises_only_bind {A B} (m : M S A) (k : A -> M S B) :
  raises_only P m -> (forall a, raises_only P (k a)) ->
  raises_only P (bind m k).
Proof.
  intros Hm Hk s tr e s' tr'. unfold bind.
  destruct (m s tr) as [[[a|e0] s0] tr0] eqn:E.
  - apply Hk.
  - intros H. injection H as <- _ _. eapply Hm. exact E.
Qed.

Lemma raises_only_bind_try {A B} (m : M S A) (h : exn -> M S B)
    (k : A -> M S B) :
  (forall e, raises_only P (h e)) -> (forall a, raises_only P (k a)) ->
  raises_only P (bind_try m h k).
Proof.
  intros Hh Hk s tr e s' tr'. unfold bind_try.
  destruct (m s tr) as [[[a|e0] s0] tr0]; [apply Hk | apply Hh].
Qed.

Lemma raises_only_try_except {A} (m : M S A) (h : exn -> M S A) :
  (forall e, raises_only P (h e)) -> raises_only P (try_except m h).
Proof.
  intros Hh s tr e s' tr'. unfold try_except.
  destruct (m s tr) as [[[a|e0] s0] tr0]; [discriminate | apply Hh].
Qed.
End RaisesOnly.

(** A computation that can raise nothing returns. *)
Lemma raises_only_never {S A} (m : M S A) s tr :
  raises_only (fun _ => False) m -> exists a, outcome (m s tr) = Ok a.
Proof.
  intros H. destruct (m s tr) as [[[a|e] s'] tr'] eqn:E.
  - exists a. reflexivity.
  - destruct (H _ _ _ _ _ E).
Qed.

Ltac raises_step :=
  match goal with
  | |- raises_only _ (bind_try _ _ _) =>
      apply raises_only_bind_try; [intros ?|intros ?]
  | |- raises_only _ (try_except _ _) =>
      apply raises_only_try_except; intros ?
  | |- raises_only _ (bind _ _) => apply raises_only_bind; [|intros ?]
  | |- raises_only _ (ret _) => apply raises_only_ret
  | |- raises_only _ get_state => apply raises_only_get_state
  | |- raises_only _ (if ?b then _ else _) => destruct b
  | |- raises_only _ (match ?x with _ => _ end) => destruct x
  end.

Ltac raises_auto :=
  repeat (cbn beta zeta; first [ solve [auto] | raises_step ]).

Lemma try_except_cases {S A} (P : res A * S * list event -> Prop)
    (m : M S A) (h : exn -> M S A) s tr :
  (forall a s' tr', m s tr = (Ok a, s', tr') -> P (Ok a, s', tr')) ->
  (forall e s' tr', P (h e s' tr')) ->
  P (try_except m h s tr).
Proof.
  intros Hm Hh. unfold try_except.
  destruct (m s tr) as [[[a|e] s'] tr']; auto.
Qed.

(* ------------------------------------------------------------------ *)
(** ** The batch handler: what it returns *)

(** With the model loaded, the batch [translate] raises nothing: every
    exception of its [try] block becomes an error object. *)
Lemma handler_translate_loaded_never_raises caps text tl sl g tr :
  Handler.is_loaded g = true ->
  exists v, outcome (Handler.translate caps text tl sl g tr) = Ok v.
Proof.
  intros HL. unfold Handler.translate.
  erewrite bind_ok by reflexivity.
  unfold Handler.is_loaded in HL. apply negb_true_iff in HL. rewrite HL.
  erewrite bind_ok by reflexivity.
  apply raises_only_never.
  unfold Handler.translate_except. raises_auto.
Qed.

Lemma handler_raises_nothing caps request :
  raises_only (fun _ => False) (Handler.handler caps request).
Proof. unfold Handler.handler. raises_auto. Qed.

(** Every object the batch [translate] returns has one of the keys
    [error] and [translated_text], not both. *)
Lemma handler_translate_result_shape caps text tl sl g tr v :
  outcome (Handler.translate caps text tl sl g tr) = Ok v ->
  xorb (has_key v "error") (has_key v "translated_text") = true.
Proof.
  unfold Handler.translate.
  apply bind_cases; [intros; discriminate|]. intros g0 g1 tr1 _.
  apply bind_cases; [intros; discriminate|]. intros _ g2 tr2 _.
  assert (H3 : forall e sl' s' tr',
    outcome (Handler.translate_except sl' tl e s' tr') = Ok v ->
    xorb (has_key v "error") (has_key v "translated_text") = true).
  { intros e sl' s' tr' H. injection H as <-. vm_compute. reflexivity. }
  apply bind_try_cases; [intros e s' tr'; apply H3|].
  intros stripped s' tr' _.
  destruct (negb (str_truthy stripped)).
  { intros H. injection H as <-. vm_compute. reflexivity. }
  repeat (apply bind_try_cases; [intros e1 s1 tr1'; apply H3|intros ? ? ? _]).
  intros H. injection H as <-. vm_compute. reflexivity.
Qed.

(** X1.  The batch handler never raises.  For every event, every state
    of the globals and every behaviour of the external libraries it
    returns an object, and that object has exactly one of the keys
    [error] and [translated_text]. *)
Theorem handler_always_returns_a_result_object caps request g tr :
  exists v,
    outcome (Handler.handler caps request g tr) = Ok v /\
    xorb (has_key v "error") (has_key v "translated_text") = true.
Proof.
  destruct (raises_only_never (Handler.handler caps request) g tr
              (handler_raises_nothing caps request)) as [v Hv].
  exists v. split; [exact Hv|]. revert Hv.
  unfold Handler.handler.
  apply try_except_cases.
  2:{ intros e s' tr' H. injection H as <-. vm_compute. reflexivity. }
  intros a s' tr' E H. injection H as ->.
  match type of E with
  | ?x = _ => assert (K : outcome x = Ok v) by (rewrite E; reflexivity)
  end.
  clear E. revert K.
  repeat (apply bind_cases; [intros; discriminate | intros ? ? ? _]).
  destruct (negb (truthy a0)).
  { intros H. injection H as <-. vm_compute. reflexivity. }
  destruct (negb (truthy a1)).
  { intros H. injection H as <-. vm_compute. reflexivity. }
  apply handler_translate_result_shape.
Qed.

(** The handler on an event whose input is not an object. *)
Lemma handler_on_non_object caps event g tr :
  (forall d, event_input event <> PDict d) ->
  Handler.handler caps (PDict event) g tr
  = (Ok (PDict
           [ (lit "error",
               PStr (lit "Error processing request: "
                     ++ str_exn (AttributeError
                                   (type_name (event_input event))
                                   (lit "get")))) ]),
     g, tr).
Proof.
  intros Hv. unfold Handler.handler, try_except.
  unfold bind at 1. unfold lift at 1. cbn [py_get_default].
  change (match dict_lookup event (lit "input") with
          | Some x => x | None => PDict [] end) with (event_input event).
  destruct (event_input event) as [| | | | |d];
    try (unfold bind, lift, ret; cbn [py_get]; reflexivity).
  destruct (Hv d eq_refl).
Qed.

(** X2.  An event whose [input] is present but is not an object (a
    string, a number, a list, [null], ...) is answered with the error
    object ["Error processing request: '<type>' object has no attribute
    'get'"], where [<type>] is the type of the input; nothing is loaded,
    detected or generated. *)
Theorem handler_rejects_input_that_is_not_an_object caps event g tr :
  (forall d, event_input event <> PDict d) ->
  Handler.handler caps (PDict event) g tr
  = (Ok (PDict
           [ (lit "error",
               PStr (lit "Error processing request: "
                     ++ (lit "'" ++ type_name (event_input event)
                         ++ lit "' object has no attribute '" ++ lit "get"
                         ++ lit "'"))) ]),
     g, tr).
Proof. intros H. apply handler_on_non_object. exact H. Qed.

(** The input is the string ["Hello"] instead of an object. *)
Lemma handler_rejects_input_that_is_not_an_object_witness :
  Handler.handler sample_capabilities
    (PDict [ (lit "input", PStr (lit "Hello")) ]) loaded_globals []
  = (Ok (PDict
           [ (lit "error",
               PStr (lit "Error processing request: "
                     ++ (lit "'"
                         ++ type_name
                              (event_input
                                 [ (lit "input", PStr (lit "Hello")) ])
                         ++ lit "' object has no attribute '" ++ lit "get"
                         ++ lit "'"))) ]),
     loaded_globals, []).
Proof.
  apply (handler_rejects_input_that_is_not_an_object sample_capabilities
           [ (lit "input", PStr (lit "Hello")) ] loaded_globals []).
  intros d. vm_compute. discriminate.
Defined.

(* ------------------------------------------------------------------ *)
(** ** The batch translate on values of the wrong type *)

Lemma handler_translate_text_not_str caps text tl sl g tr :
  Handler.is_loaded g = true ->
  (forall s, text <> PStr s) ->
  Handler.translate caps text tl sl g tr
  = (Ok (PDict
           [ (lit "error",
               PStr (lit "Translation error: "
                     ++ str_exn (AttributeError (type_name text)
                                   (lit "strip"))));
             (lit "source_language", py_or sl (PStr (lit "unknown")));
             (lit "target_language", tl) ]),
     g, tr).
Proof.
  intros HL Ht. unfold Handler.translate.
  erewrite bind_ok by reflexivity.
  unfold Handler.is_loaded in HL. apply negb_true_iff in HL. rewrite HL.
  erewrite bind_ok by reflexivity.
  destruct text as [| | |s| |]; try reflexivity.
  destruct (Ht s eq_refl).
Qed.

Lemma handler_translate_unhashable_target caps text tl sl g tr :
  Handler.is_loaded g = true ->
  str_truthy (strip text) = true ->
  hashable tl = false ->
  Handler.translate caps (PStr text) tl sl g tr
  = (Ok (PDict
           [ (lit "error",
               PStr (lit "Translation error: "
                     ++ str_exn (TypeError_unhashable (type_name tl))));
             (lit "source_language", py_or sl (PStr (lit "unknown")));
             (lit "target_language", tl) ]),
     g, tr).
Proof.
  intros HL Hs Htl. unfold Handler.translate.
  erewrite bind_ok by reflexivity.
  unfold Handler.is_loaded in HL. apply negb_true_iff in HL. rewrite HL.
  erewrite bind_ok by reflexivity.
  erewrite bind_try_ok by reflexivity.
  rewrite Hs. cbn [negb].
  erewrite bind_try_raise; [reflexivity|].
  unfold bind, get_state, lift, dict_contains. rewrite Htl. reflexivity.
Qed.

Lemma handler_translate_unhashable_source caps text tl sl g tr :
  Handler.ready g ->
  str_truthy (strip text) = true ->
  hashable tl = true ->
  hashable sl = false ->
  Handler.translate caps (PStr text) tl sl g tr
  = (Ok (PDict
           [ (lit "error",
               PStr (lit "Translation error: "
                     ++ str_exn (TypeError_unhashable (type_name sl))));
             (lit "source_language", py_or sl (PStr (lit "unknown")));
             (lit "target_language", tl) ]),
     g, tr).
Proof.
  intros [HT HL] Hs Htl Hsl. unfold Handler.translate.
  erewrite bind_ok by reflexivity.
  unfold Handler.is_loaded in HL. apply negb_true_iff in HL. rewrite HL.
  erewrite bind_ok by reflexivity.
  erewrite bind_try_ok by reflexivity.
  rewrite Hs. cbn [negb].
  match goal with
  | |- bind_try ?m _ _ ?s ?t = _ =>
      assert (Htgt : m s t =
        (Ok (resolve_target Handler.LANGUAGE_CODE_MAP_value (lit "eng_Latn")
               tl), s, t))
  end.
  { run. rewrite HT. unfold dict_contains, resolve_target.
    rewrite Htl.
    destruct (find_key Handler.LANGUAGE_CODE_MAP_value tl) eqn:F;
      cbn [negb]; cbn beta iota;
      [unfold dict_getitem; rewrite Htl, F
      | rewrite (getitem_en _ _ handler_lookup_en)];
      reflexivity. }
  erewrite bind_try_ok by exact Htgt. clear Htgt.
  erewrite bind_try_raise; [reflexivity|].
  destruct sl; try discriminate Hsl; reflexivity.
Qed.

(** X3.  On a running service the batch [translate] answers a value of
    the wrong type with an error object and calls no capability: a
    [text] that is not a string gives ["Translation error: '<type>'
    object has no attribute 'strip'"]; with a text that is not blank, a
    target language that is a list or an object gives ["Translation
    error: unhashable type: '<type>'"], and so does such a source
    language.  The object carries [source_language or "unknown"] and the
    target language as received. *)
Theorem batch_translate_reports_type_errors caps text tl sl g tr :
  Handler.ready g ->
  let error_object message :=
    (Ok (PDict
           [ (lit "error", PStr (lit "Translation error: " ++ message));
             (lit "source_language", py_or sl (PStr (lit "unknown")));
             (lit "target_language", tl) ]),
     g, tr) in
  ((forall s, text <> PStr s) ->
   Handler.translate caps text tl sl g tr
   = error_object
       (lit "'" ++ type_name text ++ lit "' object has no attribute '"
        ++ lit "strip" ++ lit "'")) /\
  (forall s,
      str_truthy (strip s) = true -> hashable tl = false ->
      Handler.translate caps (PStr s) tl sl g tr
      = error_object
          (lit "unhashable type: '" ++ type_name tl ++ lit "'")) /\
  (forall s,
      str_truthy (strip s) = true -> hashable tl = true ->
      hashable sl = false ->
      Handler.translate caps (PStr s) tl sl g tr
      = error_object
          (lit "unhashable type: '" ++ type_name sl ++ lit "'")).
Proof.
  intros Hr. cbv zeta. repeat split.
  - intros Hn. apply handler_translate_text_not_str; [apply Hr | exact Hn].
  - intros s Hs Htl.
    apply handler_translate_unhashable_target; [apply Hr | assumption..].
  - intros s Hs Htl Hsl.
    apply handler_translate_unhashable_source; assumption.
Qed.

(** The text is the number 5. *)
Lemma batch_translate_reports_type_errors_witness :
  Handler.translate sample_capabilities (PInt 5) (PStr (lit "fr")) PNone
    loaded_globals []
  = (Ok (PDict
           [ (lit "error",
               PStr (lit "Translation error: "
                     ++ (lit "'" ++ type_name (PInt 5)
                         ++ lit "' object has no attribute '"
                         ++ lit "strip" ++ lit "'")));
             (lit "source_language", py_or PNone (PStr (lit "unknown")));
             (lit "target_language", PStr (lit "fr")) ]),
     loaded_globals, []).
Proof.
  apply (proj1 (batch_translate_reports_type_errors sample_capabilities
                  (PInt 5) (PStr (lit "fr")) PNone loaded_globals []
                  (conj eq_refl eq_refl))).
  intros s. discriminate.
Defined.

(* ------------------------------------------------------------------ *)
(** ** Detection and the calls of a translation *)

(** What detection resolves to is an entry of the table. *)
Lemma resolve_detected_entry T en r :
  dict_lookup T (lit "en") = Some en ->
  dict_lookup T (snd (resolve_detected T en r))
  = Some (fst (resolve_detected T en r)).
Proof.
  intros Hen. unfold resolve_detected.
  destruct r as [c|e]; [|exact Hen].
  destruct (dict_lookup T c) as [tag|] eqn:L; [|exact Hen].
  destruct (str_truthy tag); [exact L | exact Hen].
Qed.

(** X4.  [detect_language] never raises and always returns an entry of
    the table, whatever the detector does: the batch function returns a
    locale tag together with the short code the table maps to it, the
    method of the translator class returns a locale tag of the table.
    It calls the detector exactly once and leaves the state alone. *)
Theorem detect_language_returns_an_entry_of_the_table caps text :
  (forall g tr,
      Handler.ready g ->
      exists tag code,
        Handler.detect_language caps text g tr
        = (Ok (tag, code), g, tr ++ [Detect text]) /\
        dict_lookup Handler.LANGUAGE_CODE_MAP_value code = Some tag) /\
  (forall g tr,
      NllbModel.ready g ->
      exists tag code,
        NllbModel.detect_language caps text g tr
        = (Ok tag, g, tr ++ [Detect text]) /\
        dict_lookup NllbModel.LANGUAGE_CODE_MAP_value code = Some tag).
Proof.
  split.
  - intros g tr [HT _].
    rewrite (handler_detect_language_run caps _ _ handler_lookup_en _ _ _ HT).
    eexists. eexists. split; [rewrite <- surjective_pairing; reflexivity|].
    apply resolve_detected_entry. exact handler_lookup_en.
  - intros g tr [RT _].
    rewrite (rest_detect_language_run caps _ _ rest_lookup_en _ _ _ RT).
    eexists. eexists. split; [reflexivity|].
    apply resolve_detected_entry. exact rest_lookup_en.
Qed.

(** Detection on ["Hello"] with a detector that fails on every text. *)
Lemma detect_language_returns_an_entry_of_the_table_witness :
  exists tag code,
    Handler.detect_language
      {| load_tokenizer := load_tokenizer sample_capabilities;
         load_seq2seq := load_seq2seq sample_capabilities;
         detect := fun _ _ => Raise (LibraryError (lit "No features in text."));
         generate := generate sample_capabilities |}
      (lit "Hello") loaded_globals []
    = (Ok (tag, code), loaded_globals, [] ++ [Detect (lit "Hello")]) /\
    dict_lookup Handler.LANGUAGE_CODE_MAP_value code = Some tag.
Proof.
  apply (proj1 (detect_language_returns_an_entry_of_the_table _ (lit "Hello"))).
  split; reflexivity.
Defined.

Lemma resolve_target_is_tag T en tl :
  dict_lookup T (lit "en") = Some en ->
  is_tag T (resolve_target T en tl).
Proof.
  intros Hen. unfold resolve_target.
  destruct (find_key T tl) as [c|] eqn:F.
  - destruct tl; try discriminate F. exists s. exact F.
  - exists (lit "en"). exact Hen.
Qed.

Lemma batch_source_is_tag caps T en tr text sl :
  dict_lookup T (lit "en") = Some en ->
  is_tag T (fst (fst (batch_source caps T en tr text sl))).
Proof.
  intros Hen. unfold batch_source.
  destruct (find_key T sl) as [c|] eqn:F.
  - destruct sl; try discriminate F. exists s. exact F.
  - eexists. apply resolve_detected_entry. exact Hen.
Qed.

Lemma batch_source_calls caps T en tr text sl :
  Forall (translation_call T text) (snd (batch_source caps T en tr text sl)).
Proof.
  unfold batch_source. destruct (find_key T sl); cbn [snd].
  - constructor.
  - constructor; [reflexivity | constructor].
Qed.

Lemma batch_source_detect_count caps T en tr text sl :
  List.length (detect_calls (snd (batch_source caps T en tr text sl))) <= 1.
Proof. unfold batch_source. destruct (find_key T sl); cbn; lia. Qed.

Lemma rest_source_is_tag caps T en tr text sl :
  dict_lookup T (lit "en") = Some en ->
  is_tag T (rest_source caps T en tr text sl).
Proof.
  intros Hen. unfold rest_source.
  assert (D : is_tag T (fst (resolve_detected T en (detect caps tr text))))
    by (eexists; apply resolve_detected_entry; exact Hen).
  destruct sl as [s|]; [|exact D].
  destruct (dict_lookup T s) as [c|] eqn:L; [exists s; exact L | exact D].
Qed.

Lemma str_or_not (text : pyval) :
  (exists s, text = PStr s) \/ (forall s, text <> PStr s).
Proof. destruct text; try (right; discriminate). left; eauto. Qed.

(** The calls of the batch [translate] on a running service, for
    arguments of any type. *)
Lemma handler_translate_calls caps text tl sl g tr :
  Handler.ready g ->
  exists evs,
    final_trace (Handler.translate caps text tl sl g tr) = tr ++ evs /\
    Forall (translation_call Handler.LANGUAGE_CODE_MAP_value (as_str text))
      evs /\
    List.length (generate_calls evs) <= 1 /\
    List.length (detect_calls evs) <= 1.
Proof.
  intros [HT HL].
  assert (Hnil : forall v : pyval,
            final_trace (Ok v, g, tr) = tr ++ [] /\
            Forall (translation_call Handler.LANGUAGE_CODE_MAP_value
                      (as_str text)) [] /\
            List.length (generate_calls []) <= 1 /\
            List.length (detect_calls []) <= 1)
    by (intros; rewrite app_nil_r; repeat split; auto).
  destruct (str_or_not text) as [[s ->]|Hn].
  2:{ exists []. rewrite handler_translate_text_not_str by assumption.
      apply Hnil. }
  destruct (blank_or_not s) as [Hb|Hs].
  { exists []. rewrite handler_translate_blank by assumption. apply Hnil. }
  destruct (hashable tl) eqn:Htl.
  2:{ exists []. rewrite handler_translate_unhashable_target by assumption.
      apply Hnil. }
  destruct (hashable sl) eqn:Hsl.
  2:{ exists []. rewrite handler_translate_unhashable_source
        by (try split; assumption).
      apply Hnil. }
  rewrite (handler_translate_run caps _ _ handler_lookup_en
             g tr s tl sl HT HL Hs Htl Hsl).
  cbv zeta. unfold final_trace. cbn [snd as_str].
  eexists. split; [rewrite <- app_assoc; reflexivity|]. split; [|split].
  - apply Forall_app. split; [apply batch_source_calls|].
    constructor; [|constructor]. cbn [translation_call].
    repeat split.
    + apply batch_source_is_tag. exact handler_lookup_en.
    + apply resolve_target_is_tag. exact handler_lookup_en.
  - rewrite generate_calls_app, batch_source_no_generate. cbn. lia.
  - rewrite detect_calls_app. cbn. rewrite app_nil_r.
    apply batch_source_detect_count.
Qed.

Lemma rest_translate_calls caps text tl sl g tr :
  NllbModel.ready g ->
  exists evs,
    final_trace (NllbModel.translate caps text tl sl g tr) = tr ++ evs /\
    Forall (translation_call NllbModel.LANGUAGE_CODE_MAP_value text) evs /\
    List.length (generate_calls evs) <= 1 /\
    List.length (detect_calls evs) <= 1.
Proof.
  intros [RT RL].
  destruct (blank_or_not text) as [Hb|Hs].
  { exists []. rewrite rest_translate_blank by assumption.
    rewrite app_nil_r. repeat split; auto. }
  rewrite (rest_translate_run caps _ _ rest_lookup_en g tr text tl sl
             RT RL Hs).
  cbv zeta. unfold final_trace. cbn [snd].
  exists [Detect text;
          Generate
            (rest_source caps NllbModel.LANGUAGE_CODE_MAP_value
               (lit "eng_Latn") tr text sl)
            (resolve_target NllbModel.LANGUAGE_CODE_MAP_value
               (lit "eng_Latn") (PStr tl)) text].
  split; [rewrite <- app_assoc; reflexivity|]. split; [|split].
  - constructor; [reflexivity|]. constructor; [|constructor].
    cbn [translation_call]. repeat split.
    + apply rest_source_is_tag. exact rest_lookup_en.
    + apply resolve_target_is_tag. exact rest_lookup_en.
  - cbn. lia.
  - cbn. lia.
Qed.

(** X5.  Whatever its arguments are, a call to [translate] on a service
    that is ready only ever calls the detector on the text and the
    generation capability on the text between two locale tags of the
    table: no tag outside the table reaches the tokenizer or the model,
    and the model is not loaded again.  It calls the generation
    capability at most once and the detector at most once.  This holds
    for the batch function on arguments of any type and for the method
    of the translator class. *)
Theorem translate_calls_use_tags_of_the_table caps :
  (forall text tl sl g tr,
      Handler.ready g ->
      exists evs,
        final_trace (Handler.translate caps text tl sl g tr) = tr ++ evs /\
        Forall
          (translation_call Handler.LANGUAGE_CODE_MAP_value (as_str text))
          evs /\
        List.length (generate_calls evs) <= 1 /\
        List.length (detect_calls evs) <= 1) /\
  (forall text tl sl g tr,
      NllbModel.ready g ->
      exists evs,
        final_trace (NllbModel.translate caps text tl sl g tr) = tr ++ evs /\
        Forall (translation_call NllbModel.LANGUAGE_CODE_MAP_value text)
          evs /\
        List.length (generate_calls evs) <= 1 /\
        List.length (detect_calls evs) <= 1).
Proof.
  split; intros; [apply handler_translate_calls | apply rest_translate_calls];
    assumption.
Qed.

(** ["Hello"] to the unsupported target ["xx"], no source given. *)
Lemma translate_calls_use_tags_of_the_table_witness :
  exists evs,
    final_trace
      (Handler.translate sample_capabilities (PStr (lit "Hello"))
         (PStr (lit "xx")) PNone loaded_globals [])
    = [] ++ evs /\
    Forall
      (translation_call Handler.LANGUAGE_CODE_MAP_value
         (as_str (PStr (lit "Hello"))))
      evs /\
    List.length (generate_calls evs) <= 1 /\
    List.length (detect_calls evs) <= 1.
Proof.
  apply (proj1 (translate_calls_use_tags_of_the_table sample_capabilities)).
  split; reflexivity.
Defined.

(* ------------------------------------------------------------------ *)
(** ** The source language the batch surface reports *)

(** Every short code of the table is a non-empty string. *)
Lemma handler_keys_truthy k c :
  dict_lookup Handler.LANGUAGE_CODE_MAP_value k = Some c ->
  str_truthy k = true.
Proof.
  intros L.
  apply (forallb_lookup (fun kv => str_truthy (fst kv))
           Handler.LANGUAGE_CODE_MAP_value k c); [|exact L].
  vm_compute. reflexivity.
Qed.

(** X6.  The batch surface reports the language it translated from.  On
    a text that is not blank, with the source language absent or any
    string, the [source_language] of the returned object is a short code
    of the table, the generation capability was called with the tag the
    table gives for that code, and the tokenizer is left with that tag
    as its [src_lang].  This holds when the generation step returns and
    when it raises: the error object names the same code, never
    ["unknown"].  At most one call to the detector precedes the
    generation step. *)
Theorem batch_translate_reports_the_language_it_translated_from
    caps text tl source_language g tr :
  Handler.ready g ->
  str_truthy (strip text) = true ->
  exists code tag evs,
    dict_lookup Handler.LANGUAGE_CODE_MAP_value code = Some tag /\
    (evs = [] \/ evs = [Detect text]) /\
    let tgt :=
      resolve_target Handler.LANGUAGE_CODE_MAP_value (lit "eng_Latn")
        (PStr tl) in
    Handler.translate caps (PStr text) (PStr tl)
      (source_value source_language) g tr
    = (Ok (match generate caps (tr ++ evs) tag tgt text with
           | Ok translation =>
               PDict [ (lit "translated_text", PStr translation);
                       (lit "source_language", PStr code);
                       (lit "target_language", PStr tl) ]
           | Raise e =>
               PDict [ (lit "error",
                         PStr (lit "Translation error: " ++ str_exn e));
                       (lit "source_language", PStr code);
                       (lit "target_language", PStr tl) ]
           end),
       {| Handler.LANGUAGE_CODE_MAP := Handler.LANGUAGE_CODE_MAP g;
          Handler.model := Handler.model g;
          Handler.tokenizer := Some {| src_lang := tag |} |},
       (tr ++ evs) ++ [Generate tag tgt text]).
Proof.
  intros [HT HL] Hs.
  pose proof (handler_translate_run caps _ _ handler_lookup_en
                g tr text (PStr tl) (source_value source_language)
                HT HL Hs eq_refl (source_value_hashable source_language))
    as R.
  cbv zeta in R. rewrite R. clear R. unfold batch_source.
  destruct (find_key Handler.LANGUAGE_CODE_MAP_value
              (source_value source_language)) as [c|] eqn:F.
  - destruct source_language as [s|]; [|discriminate F].
    cbn [source_value find_key] in F.
    exists s, c, []. split; [exact F|]. split; [left; reflexivity|].
    cbv zeta. cbn [fst snd source_value]. unfold batch_result, py_or.
    cbn [truthy]. rewrite (handler_keys_truthy s c F).
    destruct (generate caps _ _ _ _); reflexivity.
  - set (d := resolve_detected Handler.LANGUAGE_CODE_MAP_value
                (lit "eng_Latn") (detect caps tr text)).
    assert (E : dict_lookup Handler.LANGUAGE_CODE_MAP_value (snd d)
                = Some (fst d))
      by (apply resolve_detected_entry; exact handler_lookup_en).
    exists (snd d), (fst d), [Detect text].
    split; [exact E|]. split; [right; reflexivity|].
    cbv zeta. cbn [fst snd]. unfold batch_result, py_or.
    cbn [truthy]. rewrite (handler_keys_truthy _ _ E).
    destruct (generate caps _ _ _ _); reflexivity.
Qed.

(** ["Hello"] to French, no source given, with a generation step that
    fails. *)
Lemma batch_translate_reports_the_language_it_translated_from_witness :
  exists code tag evs,
    dict_lookup Handler.LANGUAGE_CODE_MAP_value code = Some tag /\
    (evs = [] \/ evs = [Detect (lit "Hello")]) /\
    Handler.translate failing_generation (PStr (lit "Hello"))
      (PStr (lit "fr")) (source_value None) loaded_globals []
    = (Ok (match
             generate failing_generation ([] ++ evs) tag
               (resolve_target Handler.LANGUAGE_CODE_MAP_value
                  (lit "eng_Latn") (PStr (lit "fr")))
               (lit "Hello")
           with
           | Ok translation =>
               PDict [ (lit "translated_text", PStr translation);
                       (lit "source_language", PStr code);
                       (lit "target_language", PStr (lit "fr")) ]
           | Raise e =>
               PDict [ (lit "error",
                         PStr (lit "Translation error: " ++ str_exn e));
                       (lit "source_language", PStr code);
                       (lit "target_language", PStr (lit "fr")) ]
           end),
       {| Handler.LANGUAGE_CODE_MAP :=
            Handler.LANGUAGE_CODE_MAP loaded_globals;
          Handler.model := Handler.model loaded_globals;
          Handler.tokenizer := Some {| src_lang := tag |} |},
       ([] ++ evs)
         ++ [Generate tag
               (resolve_target Handler.LANGUAGE_CODE_MAP_value
                  (lit "eng_Latn") (PStr (lit "fr")))
               (lit "Hello")]).
Proof.
  apply (batch_translate_reports_the_language_it_translated_from
           failing_generation (lit "Hello") (lit "fr") None loaded_globals []
           (conj eq_refl eq_refl) eq_refl).
Defined.

(* ------------------------------------------------------------------ *)
(** ** The running batch service *)

(** X7.  In every state the running batch service reaches, a call of the
    handler, on any event, never loads the tokenizer or the model again,
    calls the generation capability at most once and the detector at
    most once. *)
Theorem running_service_never_reloads_the_model caps g tr request :
  Handler.reachable caps g tr ->
  exists evs,
    final_trace (Handler.handler caps request g tr) = tr ++ evs /\
    Forall (fun ev => ev <> LoadTokenizer /\ ev <> LoadModel) evs /\
    List.length (generate_calls evs) <= 1 /\
    List.length (detect_calls evs) <= 1.
Proof.
  intros R. pose proof (reachable_ready caps g tr R) as Hr.
  assert (Hnil : forall x : res pyval * Handler.globals * list event,
            final_trace x = tr ->
            exists evs, final_trace x = tr ++ evs /\
              Forall (fun ev => ev <> LoadTokenizer /\ ev <> LoadModel) evs /\
              List.length (generate_calls evs) <= 1 /\
              List.length (detect_calls evs) <= 1).
  { intros x Hx. exists []. rewrite app_nil_r. repeat split; auto. }
  destruct request as [| | | | |ev]; try (apply Hnil; reflexivity).
  destruct (event_input ev) as [| | | | |input] eqn:Ei.
  1-5: apply Hnil; rewrite handler_on_non_object
         by (rewrite Ei; discriminate); reflexivity.
  rewrite (handler_on_object caps ev input g tr Ei). unfold try_except.
  destruct (negb (truthy (field input (lit "text"))));
    [apply Hnil; reflexivity|].
  destruct (negb (truthy (field input (lit "target_language"))));
    [apply Hnil; reflexivity|].
  destruct (handler_translate_loaded_never_raises caps
              (field input (lit "text")) (field input (lit "target_language"))
              (field input (lit "source_language")) g tr (proj2 Hr))
    as [v Hv].
  destruct (handler_translate_calls caps (field input (lit "text"))
              (field input (lit "target_language"))
              (field input (lit "source_language")) g tr Hr)
    as [evs [Ht [Hc [Hg Hd]]]].
  destruct (Handler.translate caps _ _ _ g tr) as [[[v'|e] g'] tr'];
    [|discriminate Hv].
  exists evs. split; [exact Ht|]. split; [|split; assumption].
  eapply Forall_impl; [|exact Hc].
  intros [] H; cbn in H; try contradiction; split; discriminate.
Qed.

(** The service right after its module body, asked to translate
    ["Hello"] to French. *)
Lemma running_service_never_reloads_the_model_witness :
  exists evs,
    final_trace
      (Handler.handler sample_capabilities
         (PDict [ (lit "input",
                    PDict [ (lit "text", PStr (lit "Hello"));
                            (lit "target_language", PStr (lit "fr")) ]) ])
         loaded_globals [LoadTokenizer; LoadModel])
    = [LoadTokenizer; LoadModel] ++ evs /\
    Forall (fun ev => ev <> LoadTokenizer /\ ev <> LoadModel) evs /\
    List.length (generate_calls evs) <= 1 /\
    List.length (detect_calls evs) <= 1.
Proof.
  apply (running_service_never_reloads_the_model sample_capabilities).
  apply Handler.reach_startup. vm_compute. reflexivity.
Defined.

(* ------------------------------------------------------------------ *)
(** ** The singleton translator *)

Lemma get_translator_existing caps g tr t :
  NllbModel.translator g = Some t ->
  NllbModel.get_translator caps g tr = (Ok t, g, tr).
Proof.
  intros H. unfold NllbModel.get_translator. run. rewrite H. reflexivity.
Qed.

Lemma get_translator_missing caps g tr :
  NllbModel.translator g = None ->
  NllbModel.get_translator caps g tr =
  match load_tokenizer caps tr with
  | Raise e => (Raise e, g, tr ++ [LoadTokenizer])
  | Ok tok =>
      match load_seq2seq caps (tr ++ [LoadTokenizer]) with
      | Raise e => (Raise e, g, (tr ++ [LoadTokenizer]) ++ [LoadModel])
      | Ok _ =>
          (Ok {| NllbModel.tokenizer := tok |},
           {| NllbModel.LANGUAGE_CODE_MAP := NllbModel.LANGUAGE_CODE_MAP g;
              NllbModel.translator := Some {| NllbModel.tokenizer := tok |} |},
           (tr ++ [LoadTokenizer]) ++ [LoadModel])
      end
  end.
Proof.
  intros H. unfold NllbModel.get_translator, NllbModel.init,
    NllbModel.set_translator. run. rewrite H. cbn beta iota.
  destruct (load_tokenizer caps tr); [|reflexivity].
  destruct (load_seq2seq caps _); reflexivity.
Qed.

(** X8.  [get_translator] builds the translator at most once.  Once a
    call has returned an instance, the global holds that instance, and
    every later call returns the same instance without loading anything
    and without touching the state. *)
Theorem get_translator_reuses_the_singleton caps g tr t :
  outcome (NllbModel.get_translator caps g tr) = Ok t ->
  let g' := final_state (NllbModel.get_translator caps g tr) in
  NllbModel.translator g' = Some t /\
  forall tr', NllbModel.get_translator caps g' tr' = (Ok t, g', tr').
Proof.
  intros H. cbv zeta.
  assert (K : NllbModel.translator
                (final_state (NllbModel.get_translator caps g tr)) = Some t).
  { destruct (NllbModel.translator g) as [t0|] eqn:E.
    - rewrite (get_translator_existing caps g tr t0 E) in *.
      injection H as <-. exact E.
    - rewrite (get_translator_missing caps g tr E) in *.
      destruct (load_tokenizer caps tr); [|discriminate H].
      destruct (load_seq2seq caps _); [|discriminate H].
      injection H as <-. reflexivity. }
  split; [exact K|]. intros tr'. apply get_translator_existing. exact K.
Qed.

(** The first call of a fresh module, then a second one. *)
Lemma get_translator_reuses_the_singleton_witness :
  NllbModel.translator
    (final_state
       (NllbModel.get_translator sample_capabilities
          NllbModel.module_globals []))
  = Some {| NllbModel.tokenizer := {| src_lang := lit "eng_Latn" |} |} /\
  forall tr',
    NllbModel.get_translator sample_capabilities
      (final_state
         (NllbModel.get_translator sample_capabilities
            NllbModel.module_globals []))
      tr'
    = (Ok {| NllbModel.tokenizer := {| src_lang := lit "eng_Latn" |} |},
       final_state
         (NllbModel.get_translator sample_capabilities
            NllbModel.module_globals []),
       tr').
Proof.
  apply (get_translator_reuses_the_singleton sample_capabilities
           NllbModel.module_globals []
           {| NllbModel.tokenizer := {| src_lang := lit "eng_Latn" |} |}).
  reflexivity.
Defined.

(** X9.  A failed construction is not cached.  When [get_translator]
    raises, the global was [None] and still is, the state is unchanged,
    and any later call starts loading again from the tokenizer. *)
Theorem get_translator_does_not_cache_a_failed_load caps g tr e :
  outcome (NllbModel.get_translator caps g tr) = Raise e ->
  final_state (NllbModel.get_translator caps g tr) = g /\
  NllbModel.translator g = None /\
  forall tr', exists evs,
    final_trace (NllbModel.get_translator caps g tr')
    = tr' ++ LoadTokenizer :: evs.
Proof.
  intros H.
  destruct (NllbModel.translator g) as [t0|] eqn:E.
  { rewrite (get_translator_existing caps g tr t0 E) in H. discriminate H. }
  split; [|split; [reflexivity|]].
  - rewrite (get_translator_missing caps g tr E) in *.
    destruct (load_tokenizer caps tr); [|reflexivity].
    destruct (load_seq2seq caps _); [discriminate H | reflexivity].
  - intros tr'. rewrite (get_translator_missing caps g tr' E).
    destruct (load_tokenizer caps tr'); [|exists []; reflexivity].
    destruct (load_seq2seq caps _); exists [LoadModel];
      unfold final_trace; cbn [snd]; rewrite <- app_assoc; reflexivity.
Qed.

(** A fresh module whose tokenizer cannot be loaded. *)
Lemma get_translator_does_not_cache_a_failed_load_witness :
  final_state (NllbModel.get_translator failing_load
                 NllbModel.module_globals [])
  = NllbModel.module_globals /\
  NllbModel.translator NllbModel.module_globals = None /\
  forall tr', exists evs,
    final_trace (NllbModel.get_translator failing_load
                   NllbModel.module_globals tr')
    = tr' ++ LoadTokenizer :: evs.
Proof.
  apply (get_translator_does_not_cache_a_failed_load failing_load
           NllbModel.module_globals []
           (LibraryError (lit "out of disk space"))).
  reflexivity.
Defined.

(* ------------------------------------------------------------------ *)
(** ** The statuses of the route *)

Lemma rest_english_fallback_raises :
  raises_only unexpected NllbModel.english_fallback.
Proof.
  unfold NllbModel.english_fallback.
  apply raises_only_bind; [apply raises_only_get_state|]. intros g.
  apply raises_only_lift. intros e. unfold dict_getitem. cbn [hashable].
  destruct (find_key _ _); [discriminate|]. intros H. injection H as <-.
  exact I.
Qed.

Lemma rest_detect_language_raises caps text :
  raises_only unexpected (NllbModel.detect_language caps text).
Proof.
  unfold NllbModel.detect_language.
  apply raises_only_try_except. intros _. apply rest_english_fallback_raises.
Qed.

Lemma rest_translate_raises P caps text tl sl :
  raises_only P (NllbModel.translate caps text tl sl).
Proof.
  unfold NllbModel.translate. apply raises_only_try_except.
  intros e. apply raises_only_ret.
Qed.

Lemma rest_get_translator_raises caps :
  library_errors_only caps ->
  raises_only unexpected (NllbModel.get_translator caps).
Proof.
  intros [H1 H2]. unfold NllbModel.get_translator, NllbModel.init,
    NllbModel.set_translator.
  apply raises_only_bind; [apply raises_only_get_state|]. intros g.
  destruct (NllbModel.translator g); [apply raises_only_ret|].
  apply raises_only_bind.
  - apply raises_only_bind; [apply raises_only_call; exact H1|]. intros tok.
    apply raises_only_bind; [apply raises_only_call; exact H2|]. intros _.
    apply raises_only_ret.
  - intros t. apply raises_only_bind; [|intros; apply raises_only_ret].
    intros s tr e s' tr' H. discriminate H.
Qed.

(** X10.  The route answers every request with status 200 or with status
    500 and the detail ["An unexpected error occurred: ..."], in every
    state and whatever the detector and the generation capability do,
    provided loading the model fails with exceptions of the libraries
    only.  The clauses for [UnsupportedLanguageError] (status 400) and
    for [TranslationError] are never taken: nothing raises these
    exceptions. *)
Theorem route_answers_200_or_500_never_400 caps request g tr :
  library_errors_only caps ->
  (exists body,
      outcome (Endpoints.translate caps request g tr)
      = Ok (Endpoints.Response 200 body)) \/
  (exists e,
      unexpected e /\
      outcome (Endpoints.translate caps request g tr)
      = Ok (Endpoints.HTTPException 500
              (lit "An unexpected error occurred: " ++ str_exn e))).
Proof.
  intros Hlib. unfold Endpoints.translate.
  match goal with
  | |- context [try_except ?m _ g tr] =>
      assert (Hr : raises_only unexpected m);
      [|assert (Hok : forall r, outcome (m g tr) = Ok r ->
                        exists body, r = Endpoints.Response 200 body);
        [|unfold try_except; destruct (m g tr) as [[[r|e] g'] tr'] eqn:E]]
  end.
  - apply raises_only_bind; [apply rest_get_translator_raises; exact Hlib|].
    intros _. apply raises_only_bind.
    + destruct (TranslationRequest.source_language request);
        [apply raises_only_ret|].
      apply raises_only_bind; [apply rest_detect_language_raises|].
      intros; apply raises_only_ret.
    + intros sl. apply raises_only_bind; [apply rest_translate_raises|].
      intros; apply raises_only_ret.
  - intros r.
    repeat (apply bind_cases; [intros; discriminate | intros ? ? ? _]).
    intros H. injection H as <-. eexists; reflexivity.
  - left. destruct (Hok r eq_refl) as [body ->]. exists body. reflexivity.
  - right. exists e. pose proof (Hr _ _ _ _ _ E) as U. split; [exact U|].
    destruct e; try destruct U; reflexivity.
Qed.

(** A request on a fresh module whose tokenizer cannot be loaded. *)
Lemma route_answers_200_or_500_never_400_witness :
  (exists body,
      outcome
        (Endpoints.translate failing_load
           {| TranslationRequest.text := lit "Hello";
              TranslationRequest.target_language := lit "fr";
              TranslationRequest.source_language := None |}
           NllbModel.module_globals [])
      = Ok (Endpoints.Response 200 body)) \/
  (exists e,
      unexpected e /\
      outcome
        (Endpoints.translate failing_load
           {| TranslationRequest.text := lit "Hello";
              TranslationRequest.target_language := lit "fr";
              TranslationRequest.source_language := None |}
           NllbModel.module_globals [])
      = Ok (Endpoints.HTTPException 500
              (lit "An unexpected error occurred: " ++ str_exn e))).
Proof.
  apply (route_answers_200_or_500_never_400 failing_load).
  split; intros tr e H.
  - injection H as <-. exact I.
  - discriminate H.
Defined.

(** X11.  Once the singleton exists the route answers every request with
    status 200, whatever the detector and the generation capability do.
    The response repeats the target language of the request, also when
    English was substituted for it, and the source language of the
    request when one was given, also when it is not in the table; for a
    blank text the translated text is empty. *)
Theorem route_with_singleton_answers_200_and_echoes_codes
    caps request g tr :
  NllbModel.ready g ->
  exists body,
    outcome (Endpoints.translate caps request g tr)
    = Ok (Endpoints.Response 200 body) /\
    TranslationResponse.target_language body
    = TranslationRequest.target_language request /\
    (forall s, TranslationRequest.source_language request = Some s ->
               TranslationResponse.source_language body = s) /\
    (forallb isspace (TranslationRequest.text request) = true ->
     TranslationResponse.translated_text body = lit "").
Proof.
  intros [RT RL].
  destruct (NllbModel.translator g) as [t0|] eqn:Et; [|discriminate].
  unfold Endpoints.translate.
  assert (Hsrc : exists sl tr1,
    (match TranslationRequest.source_language request with
     | None =>
         source_language_code <-
           NllbModel.detect_language caps (TranslationRequest.text request) ;;
         ret (Endpoints.extract_iso_code source_language_code)
     | Some s => ret s
     end) g tr = (Ok sl, g, tr1) /\
    (forall s, TranslationRequest.source_language request = Some s -> sl = s)).
  { destruct (TranslationRequest.source_language request) as [s|].
    - exists s, tr. split; [reflexivity|]. intros s0 H. congruence.
    - eexists. eexists. split; [|discriminate].
      erewrite bind_ok
        by (apply (rest_detect_language_run caps _ _ rest_lookup_en);
            exact RT).
      reflexivity. }
  destruct Hsrc as [sl [tr1 [Hsrc Hs]]].
  destruct (rest_translate_never_raises caps (TranslationRequest.text request)
              (TranslationRequest.target_language request) (Some sl) g tr1)
    as [y Hy].
  destruct (NllbModel.translate caps (TranslationRequest.text request)
              (TranslationRequest.target_language request) (Some sl) g tr1)
    as [[[y'|e] g2] tr2] eqn:Etr; [|discriminate Hy].
  injection Hy as ->.
  eexists. split.
  - erewrite try_except_ok; [reflexivity|].
    erewrite bind_ok by (apply get_translator_existing; exact Et).
    erewrite bind_ok by exact Hsrc.
    erewrite bind_ok by exact Etr.
    reflexivity.
  - cbn. split; [reflexivity|]. split; [exact Hs|].
    intros Hb. rewrite rest_translate_blank in Etr by assumption.
    injection Etr as <- _ _. reflexivity.
Qed.

(** From the unsupported source ["xx"] to the unsupported target
    ["yy"]. *)
Lemma route_with_singleton_answers_200_and_echoes_codes_witness :
  exists body,
    outcome
      (Endpoints.translate sample_capabilities
         {| TranslationRequest.text := lit "Hello";
            TranslationRequest.target_language := lit "yy";
            TranslationRequest.source_language := Some (lit "xx") |}
         serving_globals [])
    = Ok (Endpoints.Response 200 body) /\
    TranslationResponse.target_language body
    = TranslationRequest.target_language
        {| TranslationRequest.text := lit "Hello";
           TranslationRequest.target_language := lit "yy";
           TranslationRequest.source_language := Some (lit "xx") |} /\
    (forall s,
        TranslationRequest.source_language
          {| TranslationRequest.text := lit "Hello";
             TranslationRequest.target_language := lit "yy";
             TranslationRequest.source_language := Some (lit "xx") |}
        = Some s ->
        TranslationResponse.source_language body = s) /\
    (forallb isspace
       (TranslationRequest.text
          {| TranslationRequest.text := lit "Hello";
             TranslationRequest.target_language := lit "yy";
             TranslationRequest.source_language := Some (lit "xx") |})
     = true ->
     TranslationResponse.translated_text body = lit "").
Proof.
  apply (route_with_singleton_answers_200_and_echoes_codes
           sample_capabilities).
  split; reflexivity.
Defined.

(* ------------------------------------------------------------------ *)
(** ** A request without a source language *)

(** The text before the first ['_'] of a tag of the table is not a short
    code of the table. *)
Lemma prefix_of_tag_is_no_key k tag :
  dict_lookup NllbModel.LANGUAGE_CODE_MAP_value k = Some tag ->
  dict_lookup NllbModel.LANGUAGE_CODE_MAP_value
    (Endpoints.extract_iso_code tag) = None.
Proof.
  intros L.
  pose proof (forallb_lookup
    (fun kv =>
       match dict_lookup NllbModel.LANGUAGE_CODE_MAP_value
               (Endpoints.extract_iso_code (snd kv)) with
       | None => true | Some _ => false end)
    NllbModel.LANGUAGE_CODE_MAP_value k tag) as H.
  cbn [snd] in H.
  destruct (dict_lookup NllbModel.LANGUAGE_CODE_MAP_value
              (Endpoints.extract_iso_code tag)); [|reflexivity].
  assert (false = true) by (apply H; [vm_compute; reflexivity | exact L]).
  discriminate.
Qed.

(** X12.  For a request without a source language and with a text that
    is not blank, the route calls the detector twice: once itself, to
    report a source language, and once more inside the method
    [translate], because the code it passes on, the text before ['_'] of
    the detected tag, is never a short code of the table.  The response
    reports the language of the first detection, while the translation
    is generated from the language of the second; the generation
    capability is called once. *)
Theorem route_without_source_detects_twice caps text tl g tr :
  NllbModel.ready g ->
  str_truthy (strip text) = true ->
  let T := NllbModel.LANGUAGE_CODE_MAP_value in
  let first :=
    fst (resolve_detected T (lit "eng_Latn") (detect caps tr text)) in
  let second :=
    fst (resolve_detected T (lit "eng_Latn")
           (detect caps (tr ++ [Detect text]) text)) in
  let tgt := resolve_target T (lit "eng_Latn") (PStr tl) in
  let run :=
    Endpoints.translate caps
      {| TranslationRequest.text := text;
         TranslationRequest.target_language := tl;
         TranslationRequest.source_language := None |} g tr in
  final_trace run
  = tr ++ [Detect text; Detect text; Generate second tgt text] /\
  outcome run
  = Ok (Endpoints.Response 200
          {| TranslationResponse.translated_text :=
               rest_result
                 (generate caps (tr ++ [Detect text; Detect text]) second tgt
                    text);
             TranslationResponse.source_language :=
               Endpoints.extract_iso_code first;
             TranslationResponse.target_language := tl |}).
Proof.
  intros [RT RL] Hs. cbv zeta.
  destruct (NllbModel.translator g) as [t0|] eqn:Et; [|discriminate].
  unfold Endpoints.translate.
  cbn [TranslationRequest.source_language TranslationRequest.text
         TranslationRequest.target_language].
  set (T := NllbModel.LANGUAGE_CODE_MAP_value) in *.
  set (d1 := resolve_detected T (lit "eng_Latn") (detect caps tr text)).
  assert (L1 : dict_lookup T (Endpoints.extract_iso_code (fst d1)) = None).
  { apply (prefix_of_tag_is_no_key (snd d1)).
    apply resolve_detected_entry. exact rest_lookup_en. }
  erewrite try_except_ok.
  2:{ erewrite bind_ok by (apply get_translator_existing; exact Et).
      erewrite bind_ok.
      2:{ erewrite bind_ok
            by (apply (rest_detect_language_run caps _ _ rest_lookup_en);
                exact RT).
          reflexivity. }
      erewrite bind_ok
        by (apply (rest_translate_run caps _ _ rest_lookup_en);
            [exact RT | rewrite Et; reflexivity | exact Hs]).
      reflexivity. }
  cbv zeta. unfold rest_source. fold T. fold d1. rewrite L1.
  unfold final_trace, outcome. cbn [fst snd].
  rewrite <- !app_assoc. cbn [app]. split; reflexivity.
Qed.

(** ["Hello"] to French, no source language. *)
Lemma route_without_source_detects_twice_witness :
  final_trace
    (Endpoints.translate sample_capabilities
       {| TranslationRequest.text := lit "Hello";
          TranslationRequest.target_language := lit "fr";
          TranslationRequest.source_language := None |}
       serving_globals [])
  = [] ++ [ Detect (lit "Hello"); Detect (lit "Hello");
            Generate
              (fst (resolve_detected NllbModel.LANGUAGE_CODE_MAP_value
                      (lit "eng_Latn")
                      (detect sample_capabilities
                         ([] ++ [Detect (lit "Hello")]) (lit "Hello"))))
              (resolve_target NllbModel.LANGUAGE_CODE_MAP_value
                 (lit "eng_Latn") (PStr (lit "fr")))
              (lit "Hello") ].
Proof.
  apply (proj1 (route_without_source_detects_twice sample_capabilities
                  (lit "Hello") (lit "fr") serving_globals []
                  (conj eq_refl eq_refl) eq_refl)).
Defined.

(* ------------------------------------------------------------------ *)
(** ** Starting the application *)

(** X13.  [startup_event] never raises, so the application starts even
    when the model cannot be loaded.  If loading the tokenizer keeps
    failing with an exception [e] of the libraries, the first request
    after such a start, whatever it asks for, is answered with status
    500 and the detail ["An unexpected error occurred: "] followed by
    the message of [e]. *)
Theorem startup_failure_surfaces_on_the_first_request caps :
  (forall g tr, outcome (Main.startup_event caps g tr) = Ok tt) /\
  (forall e request,
      (forall tr, load_tokenizer caps tr = Raise e) ->
      unexpected e ->
      outcome
        ((Main.startup_event caps ;;; Endpoints.translate caps request)
           NllbModel.module_globals [])
      = Ok (Endpoints.HTTPException 500
              (lit "An unexpected error occurred: " ++ str_exn e))).
Proof.
  split.
  - intros g tr. unfold Main.startup_event, try_except, bind, ret.
    destruct (NllbModel.get_translator caps g tr) as [[[t|e] g'] tr'];
      reflexivity.
  - intros e request Hload U.
    assert (G : forall tr,
      NllbModel.get_translator caps NllbModel.module_globals tr
      = (Raise e, NllbModel.module_globals, tr ++ [LoadTokenizer])).
    { intros tr. rewrite get_translator_missing by reflexivity.
      rewrite Hload. reflexivity. }
    erewrite bind_ok.
    2:{ unfold Main.startup_event. erewrite try_except_raise;
          [reflexivity|].
        erewrite bind_raise by apply G. reflexivity. }
    unfold Endpoints.translate.
    erewrite try_except_raise by (erewrite bind_raise by apply G; reflexivity).
    destruct e; try destruct U; reflexivity.
Qed.

(** A start without disk space, then a request. *)
Lemma startup_failure_surfaces_on_the_first_request_witness :
  outcome
    ((Main.startup_event failing_load ;;;
      Endpoints.translate failing_load
        {| TranslationRequest.text := lit "Hello";
           TranslationRequest.target_language := lit "fr";
           TranslationRequest.source_language := None |})
       NllbModel.module_globals [])
  = Ok (Endpoints.HTTPException 500
          (lit "An unexpected error occurred: "
           ++ str_exn (LibraryError (lit "out of disk space")))).
Proof.
  apply (proj2 (startup_failure_surfaces_on_the_first_request failing_load)
           (LibraryError (lit "out of disk space"))).
  - intros tr. reflexivity.
  - exact I.
Defined.

(* ------------------------------------------------------------------ *)
(** ** The code reported for a detected tag *)

Lemma split_no_sep sep s : ~ In sep s -> split sep s = [s].
Proof.
  induction s as [|c s IH]; [reflexivity|]. intros H. cbn [split].
  destruct (N.eqb c sep) eqn:E.
  - apply N.eqb_eq in E. subst. destruct H. left; reflexivity.
  - rewrite IH; [reflexivity|]. intros K. apply H. right; exact K.
Qed.

Lemma split_prefix sep p r :
  ~ In sep p -> exists rest, split sep (p ++ sep :: r) = p :: rest.
Proof.
  induction p as [|c p IH]; intros H.
  - cbn [app split]. rewrite N.eqb_refl. eexists; reflexivity.
  - cbn [app split].
    destruct (N.eqb c sep) eqn:E.
    + apply N.eqb_eq in E. subst. destruct H. left; reflexivity.
    + destruct IH as [rest Hr]; [intros K; apply H; right; exact K|].
      rewrite Hr. eexists; reflexivity.
Qed.

(** X14.  The code the route extracts from a locale tag is the text
    before its first ['_'], whatever follows, and the whole tag when it
    has no ['_']; the expression never fails.  For a tag made of a
    language part, ['_'] and a script part it is the language part. *)
Theorem extract_iso_code_is_the_text_before_the_underscore :
  (forall p r, ~ In underscore p ->
               Endpoints.extract_iso_code (p ++ underscore :: r) = p) /\
  (forall s, ~ In underscore s -> Endpoints.extract_iso_code s = s).
Proof.
  split.
  - intros p r H. unfold Endpoints.extract_iso_code.
    destruct (split_prefix underscore p r H) as [rest ->]. reflexivity.
  - intros s H. unfold Endpoints.extract_iso_code.
    rewrite split_no_sep by exact H. reflexivity.
Qed.

(** The tag ["zho_Hans"]. *)
Lemma extract_iso_code_is_the_text_before_the_underscore_witness :
  Endpoints.extract_iso_code (lit "zho" ++ underscore :: lit "Hans")
  = lit "zho".
Proof.
  apply (proj1 extract_iso_code_is_the_text_before_the_underscore).
  vm_compute. intros [H|[H|[H|[]]]]; discriminate H.
Defined.
